(** * Sanic-JWT-Extended: the JWTManager (sanic_jwt_extended/jwt_manager.py)

    A shallow embedding of the manager object: the application
    configuration it fills with defaults, the registry of policy callbacks
    with its loader methods, the exception handlers it installs on the
    application, and the two token-issuing methods.

    Python objects that are mutated in place (the application, the manager)
    are threaded explicitly: a method returns the new state of the object.
    A call of a registry callback is recorded in a call log, so that
    statements of the form "the callback is (not) consulted" can be read off
    the log.  A callback is modelled by the value a call of it produces; the
    methods pass that value on as it is. *)

From Stdlib Require Import ZArith Lia.
From stdpp Require Import base option list strings gmap.

Local Open Scope Z_scope.
Local Open Scope string_scope.

(** ** Values stored in the application configuration *)

(** [datetime.timedelta], normalised the way Python stores it. *)
Record timedelta := Timedelta {
  td_days : Z;
  td_seconds : Z;
  td_microseconds : Z
}.

(** [datetime.timedelta(days=d, minutes=m)] *)
Definition mk_timedelta (days minutes : Z) : timedelta :=
  let s := minutes * 60 in
  {| td_days := days + s / 86400;
     td_seconds := s mod 86400;
     td_microseconds := 0 |}.

Definition total_seconds (d : timedelta) : Z :=
  td_days d * 86400 + td_seconds d.

(** The Python values the extension writes into [app.config]. *)
Inductive cfg_value :=
  | CNone
  | CBool (b : bool)
  | CStr (s : string)
  | CStrList (l : list string)
  | CDelta (d : timedelta).

(** ** Coroutines

    Calling a function declared [async def] runs none of its body: the call
    returns a coroutine object, and the body runs only when that object is
    awaited. *)
Record coroutine (S A : Type) := Coro { resume : S → A * S }.
Arguments Coro {S A} _.
Arguments resume {S A} _ _.

Definition await {S A} (c : coroutine S A) (s : S) : A * S := resume c s.

(** ** [dict.setdefault] on the configuration *)

Definition setdefault (k : string) (v : cfg_value)
    (cfg : gmap string cfg_value) : gmap string cfg_value :=
  match cfg !! k with
  | Some _ => cfg
  | None => <[k := v]> cfg
  end.

(** The [setdefault] calls of [_set_default_configuration_options], in the
    order of the source. *)
Definition default_options : list (string * cfg_value) :=
  [ ("JWT_TOKEN_LOCATION", CStrList ["headers"]);
    ("JWT_HEADER_NAME", CStr "Authorization");
    ("JWT_HEADER_TYPE", CStr "Bearer");
    ("JWT_QUERY_STRING_NAME", CStr "jwt");
    ("JWT_ACCESS_COOKIE_NAME", CStr "access_token_cookie");
    ("JWT_REFRESH_COOKIE_NAME", CStr "refresh_token_cookie");
    ("JWT_ACCESS_COOKIE_PATH", CStr "/");
    ("JWT_REFRESH_COOKIE_PATH", CStr "/");
    ("JWT_COOKIE_SECURE", CBool false);
    ("JWT_COOKIE_DOMAIN", CNone);
    ("JWT_SESSION_COOKIE", CBool true);
    ("JWT_COOKIE_SAMESITE", CNone);
    ("JWT_JSON_KEY", CStr "access_token");
    ("JWT_REFRESH_JSON_KEY", CStr "refresh_token");
    ("JWT_COOKIE_CSRF_PROTECT", CBool true);
    ("JWT_CSRF_METHODS", CStrList ["POST"; "PUT"; "PATCH"; "DELETE"]);
    ("JWT_ACCESS_CSRF_HEADER_NAME", CStr "X-CSRF-TOKEN");
    ("JWT_REFRESH_CSRF_HEADER_NAME", CStr "X-CSRF-TOKEN");
    ("JWT_CSRF_IN_COOKIES", CBool true);
    ("JWT_ACCESS_CSRF_COOKIE_NAME", CStr "csrf_access_token");
    ("JWT_REFRESH_CSRF_COOKIE_NAME", CStr "csrf_refresh_token");
    ("JWT_ACCESS_CSRF_COOKIE_PATH", CStr "/");
    ("JWT_REFRESH_CSRF_COOKIE_PATH", CStr "/");
    ("JWT_ACCESS_TOKEN_EXPIRES", CDelta (mk_timedelta 0 15));
    ("JWT_REFRESH_TOKEN_EXPIRES", CDelta (mk_timedelta 30 0));
    ("JWT_ALGORITHM", CStr "HS256");
    ("JWT_SECRET_KEY", CNone);
    ("JWT_PRIVATE_KEY", CNone);
    ("JWT_PUBLIC_KEY", CNone);
    ("JWT_BLACKLIST_ENABLED", CBool false);
    ("JWT_BLACKLIST_TOKEN_CHECKS", CStrList ["access"; "refresh"]);
    ("JWT_IDENTITY_CLAIM", CStr "identity");
    ("JWT_USER_CLAIMS", CStr "user_claims");
    ("JWT_CLAIMS_IN_REFRESH_TOKEN", CBool false);
    ("JWT_ERROR_MESSAGE_KEY", CStr "msg") ].

(** The value of the first entry of a list of defaults that names [k]. *)
Fixpoint first_value (k : string) (l : list (string * cfg_value))
    : option cfg_value :=
  match l with
  | [] => None
  | (k', v) :: l => if decide (k' = k) then Some v else first_value k l
  end.

(** The statements of the body, run one after the other. *)
Definition apply_defaults (cfg : gmap string cfg_value) : gmap string cfg_value :=
  foldl (λ c kv, setdefault kv.1 kv.2 c) cfg default_options.

(** The documented values of the options an application most often relies
    on: transport, CSRF, lifetimes, algorithm and claim names. *)
Definition documented_defaults : list (string * cfg_value) :=
  [ ("JWT_TOKEN_LOCATION", CStrList ["headers"]);
    ("JWT_HEADER_NAME", CStr "Authorization");
    ("JWT_HEADER_TYPE", CStr "Bearer");
    ("JWT_QUERY_STRING_NAME", CStr "jwt");
    ("JWT_COOKIE_CSRF_PROTECT", CBool true);
    ("JWT_CSRF_METHODS", CStrList ["POST"; "PUT"; "PATCH"; "DELETE"]);
    ("JWT_ACCESS_TOKEN_EXPIRES", CDelta (Timedelta 0 900 0));
    ("JWT_REFRESH_TOKEN_EXPIRES", CDelta (Timedelta 30 0 0));
    ("JWT_ALGORITHM", CStr "HS256");
    ("JWT_IDENTITY_CLAIM", CStr "identity");
    ("JWT_USER_CLAIMS", CStr "user_claims");
    ("JWT_CLAIMS_IN_REFRESH_TOKEN", CBool false);
    ("JWT_ERROR_MESSAGE_KEY", CStr "msg") ].

(** ** Names of the registry entries and of the exception classes *)

(** One name per callback attribute of the manager. *)
Inductive Hook :=
  | user_claims | user_identity | expired_token | invalid_token
  | unauthorized | needs_fresh_token | revoked_token | user_loader
  | user_loader_error | token_in_blacklist | claims_verification
  | verify_claims_failed | decode_key | encode_key.

(** The exception classes [_set_exception_callbacks] registers a handler
    for, in the order of the source. *)
Inductive ErrorKind :=
  | NoAuthorizationError | CSRFError | ExpiredSignatureError
  | InvalidHeaderError | InvalidTokenError | JWTDecodeError
  | WrongTokenError | RevokedTokenError | FreshTokenRequired
  | UserLoadError | UserClaimsVerificationError.

Global Instance Hook_eq_dec : EqDecision Hook.
Proof. solve_decision. Defined.

Global Instance ErrorKind_eq_dec : EqDecision ErrorKind.
Proof. solve_decision. Defined.

Definition all_hooks : list Hook :=
  [ user_claims; user_identity; expired_token; invalid_token; unauthorized;
    needs_fresh_token; revoked_token; user_loader; user_loader_error;
    token_in_blacklist; claims_verification; verify_claims_failed;
    decode_key; encode_key ].

Definition all_kinds : list ErrorKind :=
  [ NoAuthorizationError; CSRFError; ExpiredSignatureError;
    InvalidHeaderError; InvalidTokenError; JWTDecodeError; WrongTokenError;
    RevokedTokenError; FreshTokenRequired; UserLoadError;
    UserClaimsVerificationError ].

(** The registry entry each installed handler calls (read off the bodies of
    the eleven handlers; [handler_calls_its_hook] below checks the table
    against the handlers themselves). *)
Definition hook_of_kind (k : ErrorKind) : Hook :=
  match k with
  | NoAuthorizationError => unauthorized
  | CSRFError => unauthorized
  | ExpiredSignatureError => expired_token
  | InvalidHeaderError => invalid_token
  | InvalidTokenError => invalid_token
  | JWTDecodeError => invalid_token
  | WrongTokenError => invalid_token
  | RevokedTokenError => revoked_token
  | FreshTokenRequired => needs_fresh_token
  | UserLoadError => user_loader_error
  | UserClaimsVerificationError => verify_claims_failed
  end.

(** Two classes are served by the same registry entry. *)
Definition same_hook (k1 k2 : ErrorKind) : bool :=
  bool_decide (hook_of_kind k1 = hook_of_kind k2).

(** The classes that answer through the unauthorized entry, and those that
    answer through the invalid-token entry. *)
Definition unauthorized_class (k : ErrorKind) : bool :=
  match k with NoAuthorizationError | CSRFError => true | _ => false end.

Definition invalid_token_class (k : ErrorKind) : bool :=
  match k with
  | InvalidHeaderError | InvalidTokenError | JWTDecodeError
  | WrongTokenError => true
  | _ => false
  end.

(** An exception instance: its class and its message, [str(e)]. *)
Record Exn := { exn_kind : ErrorKind; exn_msg : string }.

Definition str (e : Exn) : string := exn_msg e.

Inductive token_type := access | refresh.

Global Instance token_type_eq_dec : EqDecision token_type.
Proof. solve_decision. Defined.

(** ** The types the extension leaves open

    [Obj] is whatever the application passes to [create_access_token]
    (Python's [Any]), [Identity] the JSON-serialisable identity stored in a
    token, [Json] the values of custom claims, [Key] and [Sig] the keys and
    signatures of the signing library, [User] what a user loader returns,
    [Response] an [HTTPResponse] and [Encoder] a JSON encoder class. *)
Class Domain := {
  Obj : Type;
  Identity : Type;
  Json : Type;
  Key : Type;
  Sig : Type;
  User : Type;
  Response : Type;
  Encoder : Type
}.

(** ** The model *)
Section Model.

Context `{Domain}.

(** *** Tokens *)

(** Modelled from the spec: the value stored under one claim name of a
    token payload (tokens.py is not among the sources).  Section 3 of the
    specification lists the payload fields: identity, token type, fresh
    flag, the time stamps, the CSRF value and the custom claims mapping. *)
Inductive claim :=
  | ClIdentity (i : Identity)
  | ClType (t : token_type)
  | ClBool (b : bool)
  | ClTime (t : Z)
  | ClStr (s : string)
  | ClClaims (c : gmap string Json).

(** Modelled from the spec: an encoded token, header [{algorithm}], the
    claims and the signature over them.  The claims of a token can be read
    without a key (the "unverified claims" a decode-key callback gets). *)
Record token_string := {
  tok_alg : string;
  tok_claims : gmap string claim;
  tok_sig : Sig
}.

(** Modelled from the spec: the decoded token of section 3. *)
Record Token := {
  identity : Identity;
  tok_type : token_type;
  fresh : bool;
  issued_at : Z;
  expires_at : Z;
  not_before : option Z;
  csrf_value : option string;
  custom_claims : gmap string Json
}.

(** *** The call log *)

Inductive Arg :=
  | NoArg
  | ArgObj (o : Obj)
  | ArgMsg (s : string)
  | ArgIdentity (i : option Identity)
  | ArgClaims (p : gmap string claim).

(** One call of a registry callback, with its argument. *)
Inductive Event := Called (h : Hook) (a : Arg).

(** A computation that returns a value and the calls it made, in order. *)
Definition traced (A : Type) : Type := A * list Event.

Global Instance traced_ret : MRet traced := λ A a, (a, []).

Global Instance traced_bind : MBind traced :=
  λ A B f m, ((f m.1).1, (m.2 ++ (f m.1).2)%list).

(** [call h arg r]: the callback stored under [h] is called with [arg] and
    returns [r]. *)
Definition call {B} (h : Hook) (arg : Arg) (r : B) : traced B :=
  (r, [Called h arg]).

Definition calls_of {A} (m : traced A) : list Event := m.2.


(** *** The manager object *)

(** The callback attributes of [JWTManager].  The two attributes that
    [__init__] sets to [None] are optional. *)
Record JWTManager := {
  _user_claims_callback : Obj → gmap string Json;
  _user_identity_callback : Obj → Identity;
  _expired_token_callback : unit → Response;
  _invalid_token_callback : string → Response;
  _unauthorized_callback : string → Response;
  _needs_fresh_token_callback : unit → Response;
  _revoked_token_callback : unit → Response;
  _user_loader_callback : option (Identity → option User);
  _user_loader_error_callback : option Identity → Response;
  _token_in_blacklist_callback : option (gmap string claim → bool);
  _claims_verification_callback : gmap string Json → bool;
  _verify_claims_failed_callback : unit → Response;
  _decode_key_callback : gmap string claim → Key;
  _encode_key_callback : Obj → Key
}.

(** The functions of default_callbacks.py (not among the sources), taken as
    parameters. *)
Class DefaultCallbacks := {
  default_user_claims_callback : Obj → gmap string Json;
  default_user_identity_callback : Obj → Identity;
  default_expired_token_callback : unit → Response;
  default_invalid_token_callback : string → Response;
  default_unauthorized_callback : string → Response;
  default_needs_fresh_token_callback : unit → Response;
  default_revoked_token_callback : unit → Response;
  default_user_loader_error_callback : option Identity → Response;
  default_claims_verification_callback : gmap string Json → bool;
  default_verify_claims_failed_callback : unit → Response;
  default_decode_key_callback : gmap string claim → Key;
  default_encode_key_callback : Obj → Key
}.

(** *** The request context *)

(** Modelled from the spec: the request context in which the verification
    pipeline saves the decoded token (utils.py is not among the sources). *)
Record Ctx := { ctx_jwt : option Token }.

(** Modelled from the spec: [utils.get_jwt_identity], the identity of the
    token saved in the request context, [None] when no token was saved. *)
Definition get_jwt_identity (ctx : Ctx) : option Identity :=
  identity <$> ctx_jwt ctx.

(** *** The exception handlers

    A handler is a closure over [self]: it reads the callback attribute when
    it runs, so it is given the state of the manager at that time. *)
Definition handler : Type := JWTManager → Ctx → Exn → traced Response.

Definition handle_auth_error : handler := λ self ctx e,
  call unauthorized (ArgMsg (str e)) (_unauthorized_callback self (str e)).

Definition handle_csrf_error : handler := λ self ctx e,
  call unauthorized (ArgMsg (str e)) (_unauthorized_callback self (str e)).

Definition handle_expired_error : handler := λ self ctx e,
  call expired_token NoArg (_expired_token_callback self ()).

Definition handle_invalid_header_error : handler := λ self ctx e,
  call invalid_token (ArgMsg (str e)) (_invalid_token_callback self (str e)).

Definition handle_invalid_token_error : handler := λ self ctx e,
  call invalid_token (ArgMsg (str e)) (_invalid_token_callback self (str e)).

Definition handle_jwt_decode_error : handler := λ self ctx e,
  call invalid_token (ArgMsg (str e)) (_invalid_token_callback self (str e)).

Definition handle_wrong_token_error : handler := λ self ctx e,
  call invalid_token (ArgMsg (str e)) (_invalid_token_callback self (str e)).

Definition handle_revoked_token_error : handler := λ self ctx e,
  call revoked_token NoArg (_revoked_token_callback self ()).

Definition handle_fresh_token_required : handler := λ self ctx e,
  call needs_fresh_token NoArg (_needs_fresh_token_callback self ()).

Definition handler_user_load_error : handler := λ self ctx e,
  let identity := get_jwt_identity ctx in
  call user_loader_error (ArgIdentity identity)
       (_user_loader_error_callback self identity).

Definition handle_failed_user_claims_verification : handler := λ self ctx e,
  call verify_claims_failed NoArg (_verify_claims_failed_callback self ()).

(** *** The application *)

(** What the manager touches of a [Sanic] application: its configuration
    and its table of exception handlers. *)
Record Sanic := {
  config : gmap string cfg_value;
  error_handlers : list (ErrorKind * handler)
}.

(** [app.exception(E)(fn)]: the handler is appended to the table. *)
Definition exception (E : ErrorKind) (fn : handler) (app : Sanic) : Sanic :=
  {| config := config app;
     error_handlers := error_handlers app ++ [(E, fn)] |}.

(** The handler the application runs for an exception of class [k]: the
    first one registered for it. *)
Definition lookup_handler (app : Sanic) (k : ErrorKind) : option handler :=
  snd <$> (snd <$> list_find (λ p, p.1 = k) (error_handlers app)).

(** The application's answer to an exception raised while a request is
    served. *)
Definition respond (app : Sanic) (self : JWTManager) (ctx : Ctx) (e : Exn)
    : option (traced Response) :=
  (λ hd, hd self ctx e) <$> lookup_handler app (exn_kind e).

(** The eleven [@app.exception(E)] registrations, in the order of the
    source.  [self] only occurs inside the handlers, which receive it when
    they run. *)
Definition _set_exception_callbacks (app : Sanic) : Sanic :=
  let app := exception NoAuthorizationError handle_auth_error app in
  let app := exception CSRFError handle_csrf_error app in
  let app := exception ExpiredSignatureError handle_expired_error app in
  let app := exception InvalidHeaderError handle_invalid_header_error app in
  let app := exception InvalidTokenError handle_invalid_token_error app in
  let app := exception JWTDecodeError handle_jwt_decode_error app in
  let app := exception WrongTokenError handle_wrong_token_error app in
  let app := exception RevokedTokenError handle_revoked_token_error app in
  let app := exception FreshTokenRequired handle_fresh_token_required app in
  let app := exception UserLoadError handler_user_load_error app in
  exception UserClaimsVerificationError
            handle_failed_user_claims_verification app.

(** The body of [_set_default_configuration_options]: thirty-five
    [app.config.setdefault] calls. *)
Definition set_default_configuration_options_body (app : Sanic) : Sanic :=
  {| config := apply_defaults (config app);
     error_handlers := error_handlers app |}.

(** [_set_default_configuration_options] is declared [async def]: a call
    returns a coroutine over the application. *)
Definition _set_default_configuration_options : coroutine Sanic unit :=
  Coro (λ app, ((), set_default_configuration_options_body app)).

(** [init_app] calls [_set_default_configuration_options(app)] as a plain
    statement: the coroutine object is dropped, never awaited. *)
Definition init_app (app : Sanic) : Sanic :=
  let _coro := _set_default_configuration_options in
  _set_exception_callbacks app.

(** A fresh application with the given configuration and no handler. *)
Definition new_app (cfg : gmap string cfg_value) : Sanic :=
  {| config := cfg; error_handlers := [] |}.

Definition __init__ `{DefaultCallbacks} (app : option Sanic)
    : JWTManager * option Sanic :=
  let self :=
    {| _user_claims_callback := default_user_claims_callback;
       _user_identity_callback := default_user_identity_callback;
       _expired_token_callback := default_expired_token_callback;
       _invalid_token_callback := default_invalid_token_callback;
       _unauthorized_callback := default_unauthorized_callback;
       _needs_fresh_token_callback := default_needs_fresh_token_callback;
       _revoked_token_callback := default_revoked_token_callback;
       _user_loader_callback := None;
       _user_loader_error_callback := default_user_loader_error_callback;
       _token_in_blacklist_callback := None;
       _claims_verification_callback := default_claims_verification_callback;
       _verify_claims_failed_callback := default_verify_claims_failed_callback;
       _decode_key_callback := default_decode_key_callback;
       _encode_key_callback := default_encode_key_callback |} in
  match app with
  | Some a => (self, Some (init_app a))
  | None => (self, None)
  end.

(** *** The loader methods

    Each loader assigns one attribute of [self] and returns the callback it
    was given.  [set_f self v] is the assignment [self.f = v]. *)

Definition set_user_claims_callback (self : JWTManager) (v : Obj → gmap string Json) : JWTManager :=
  {| _user_claims_callback := v;
     _user_identity_callback := _user_identity_callback self;
     _expired_token_callback := _expired_token_callback self;
     _invalid_token_callback := _invalid_token_callback self;
     _unauthorized_callback := _unauthorized_callback self;
     _needs_fresh_token_callback := _needs_fresh_token_callback self;
     _revoked_token_callback := _revoked_token_callback self;
     _user_loader_callback := _user_loader_callback self;
     _user_loader_error_callback := _user_loader_error_callback self;
     _token_in_blacklist_callback := _token_in_blacklist_callback self;
     _claims_verification_callback := _claims_verification_callback self;
     _verify_claims_failed_callback := _verify_claims_failed_callback self;
     _decode_key_callback := _decode_key_callback self;
     _encode_key_callback := _encode_key_callback self |}.

Definition set_user_identity_callback (self : JWTManager) (v : Obj → Identity) : JWTManager :=
  {| _user_claims_callback := _user_claims_callback self;
     _user_identity_callback := v;
     _expired_token_callback := _expired_token_callback self;
     _invalid_token_callback := _invalid_token_callback self;
     _unauthorized_callback := _unauthorized_callback self;
     _needs_fresh_token_callback := _needs_fresh_token_callback self;
     _revoked_token_callback := _revoked_token_callback self;
     _user_loader_callback := _user_loader_callback self;
     _user_loader_error_callback := _user_loader_error_callback self;
     _token_in_blacklist_callback := _token_in_blacklist_callback self;
     _claims_verification_callback := _claims_verification_callback self;
     _verify_claims_failed_callback := _verify_claims_failed_callback self;
     _decode_key_callback := _decode_key_callback self;
     _encode_key_callback := _encode_key_callback self |}.

Definition set_expired_token_callback (self : JWTManager) (v : unit → Response) : JWTManager :=
  {| _user_claims_callback := _user_claims_callback self;
     _user_identity_callback := _user_identity_callback self;
     _expired_token_callback := v;
     _invalid_token_callback := _invalid_token_callback self;
     _unauthorized_callback := _unauthorized_callback self;
     _needs_fresh_token_callback := _needs_fresh_token_callback self;
     _revoked_token_callback := _revoked_token_callback self;
     _user_loader_callback := _user_loader_callback self;
     _user_loader_error_callback := _user_loader_error_callback self;
     _token_in_blacklist_callback := _token_in_blacklist_callback self;
     _claims_verification_callback := _claims_verification_callback self;
     _verify_claims_failed_callback := _verify_claims_failed_callback self;
     _decode_key_callback := _decode_key_callback self;
     _encode_key_callback := _encode_key_callback self |}.

Definition set_invalid_token_callback (self : JWTManager) (v : string → Response) : JWTManager :=
  {| _user_claims_callback := _user_claims_callback self;
     _user_identity_callback := _user_identity_callback self;
     _expired_token_callback := _expired_token_callback self;
     _invalid_token_callback := v;
     _unauthorized_callback := _unauthorized_callback self;
     _needs_fresh_token_callback := _needs_fresh_token_callback self;
     _revoked_token_callback := _revoked_token_callback self;
     _user_loader_callback := _user_loader_callback self;
     _user_loader_error_callback := _user_loader_error_callback self;
     _token_in_blacklist_callback := _token_in_blacklist_callback self;
     _claims_verification_callback := _claims_verification_callback self;
     _verify_claims_failed_callback := _verify_claims_failed_callback self;
     _decode_key_callback := _decode_key_callback self;
     _encode_key_callback := _encode_key_callback self |}.

Definition set_unauthorized_callback (self : JWTManager) (v : string → Response) : JWTManager :=
  {| _user_claims_callback := _user_claims_callback self;
     _user_identity_callback := _user_identity_callback self;
     _expired_token_callback := _expired_token_callback self;
     _invalid_token_callback := _invalid_token_callback self;
     _unauthorized_callback := v;
     _needs_fresh_token_callback := _needs_fresh_token_callback self;
     _revoked_token_callback := _revoked_token_callback self;
     _user_loader_callback := _user_loader_callback self;
     _user_loader_error_callback := _user_loader_error_callback self;
     _token_in_blacklist_callback := _token_in_blacklist_callback self;
     _claims_verification_callback := _claims_verification_callback self;
     _verify_claims_failed_callback := _verify_claims_failed_callback self;
     _decode_key_callback := _decode_key_callback self;
     _encode_key_callback := _encode_key_callback self |}.

Definition set_needs_fresh_token_callback (self : JWTManager) (v : unit → Response) : JWTManager :=
  {| _user_claims_callback := _user_claims_callback self;
     _user_identity_callback := _user_identity_callback self;
     _expired_token_callback := _expired_token_callback self;
     _invalid_token_callback := _invalid_token_callback self;
     _unauthorized_callback := _unauthorized_callback self;
     _needs_fresh_token_callback := v;
     _revoked_token_callback := _revoked_token_callback self;
     _user_loader_callback := _user_loader_callback self;
     _user_loader_error_callback := _user_loader_error_callback self;
     _token_in_blacklist_callback := _token_in_blacklist_callback self;
     _claims_verification_callback := _claims_verification_callback self;
     _verify_claims_failed_callback := _verify_claims_failed_callback self;
     _decode_key_callback := _decode_key_callback self;
     _encode_key_callback := _encode_key_callback self |}.

Definition set_revoked_token_callback (self : JWTManager) (v : unit → Response) : JWTManager :=
  {| _user_claims_callback := _user_claims_callback self;
     _user_identity_callback := _user_identity_callback self;
     _expired_token_callback := _expired_token_callback self;
     _invalid_token_callback := _invalid_token_callback self;
     _unauthorized_callback := _unauthorized_callback self;
     _needs_fresh_token_callback := _needs_fresh_token_callback self;
     _revoked_token_callback := v;
     _user_loader_callback := _user_loader_callback self;
     _user_loader_error_callback := _user_loader_error_callback self;
     _token_in_blacklist_callback := _token_in_blacklist_callback self;
     _claims_verification_callback := _claims_verification_callback self;
     _verify_claims_failed_callback := _verify_claims_failed_callback self;
     _decode_key_callback := _decode_key_callback self;
     _encode_key_callback := _encode_key_callback self |}.

Definition set_user_loader_callback (self : JWTManager) (v : option (Identity → option User)) : JWTManager :=
  {| _user_claims_callback := _user_claims_callback self;
     _user_identity_callback := _user_identity_callback self;
     _expired_token_callback := _expired_token_callback self;
     _invalid_token_callback := _invalid_token_callback self;
     _unauthorized_callback := _unauthorized_callback self;
     _needs_fresh_token_callback := _needs_fresh_token_callback self;
     _revoked_token_callback := _revoked_token_callback self;
     _user_loader_callback := v;
     _user_loader_error_callback := _user_loader_error_callback self;
     _token_in_blacklist_callback := _token_in_blacklist_callback self;
     _claims_verification_callback := _claims_verification_callback self;
     _verify_claims_failed_callback := _verify_claims_failed_callback self;
     _decode_key_callback := _decode_key_callback self;
     _encode_key_callback := _encode_key_callback self |}.

Definition set_user_loader_error_callback (self : JWTManager) (v : option Identity → Response) : JWTManager :=
  {| _user_claims_callback := _user_claims_callback self;
     _user_identity_callback := _user_identity_callback self;
     _expired_token_callback := _expired_token_callback self;
     _invalid_token_callback := _invalid_token_callback self;
     _unauthorized_callback := _unauthorized_callback self;
     _needs_fresh_token_callback := _needs_fresh_token_callback self;
     _revoked_token_callback := _revoked_token_callback self;
     _user_loader_callback := _user_loader_callback self;
     _user_loader_error_callback := v;
     _token_in_blacklist_callback := _token_in_blacklist_callback self;
     _claims_verification_callback := _claims_verification_callback self;
     _verify_claims_failed_callback := _verify_claims_failed_callback self;
     _decode_key_callback := _decode_key_callback self;
     _encode_key_callback := _encode_key_callback self |}.

Definition set_token_in_blacklist_callback (self : JWTManager) (v : option (gmap string claim → bool)) : JWTManager :=
  {| _user_claims_callback := _user_claims_callback self;
     _user_identity_callback := _user_identity_callback self;
     _expired_token_callback := _expired_token_callback self;
     _invalid_token_callback := _invalid_token_callback self;
     _unauthorized_callback := _unauthorized_callback self;
     _needs_fresh_token_callback := _needs_fresh_token_callback self;
     _revoked_token_callback := _revoked_token_callback self;
     _user_loader_callback := _user_loader_callback self;
     _user_loader_error_callback := _user_loader_error_callback self;
     _token_in_blacklist_callback := v;
     _claims_verification_callback := _claims_verification_callback self;
     _verify_claims_failed_callback := _verify_claims_failed_callback self;
     _decode_key_callback := _decode_key_callback self;
     _encode_key_callback := _encode_key_callback self |}.

Definition set_claims_verification_callback (self : JWTManager) (v : gmap string Json → bool) : JWTManager :=
  {| _user_claims_callback := _user_claims_callback self;
     _user_identity_callback := _user_identity_callback self;
     _expired_token_callback := _expired_token_callback self;
     _invalid_token_callback := _invalid_token_callback self;
     _unauthorized_callback := _unauthorized_callback self;
     _needs_fresh_token_callback := _needs_fresh_token_callback self;
     _revoked_token_callback := _revoked_token_callback self;
     _user_loader_callback := _user_loader_callback self;
     _user_loader_error_callback := _user_loader_error_callback self;
     _token_in_blacklist_callback := _token_in_blacklist_callback self;
     _claims_verification_callback := v;
     _verify_claims_failed_callback := _verify_claims_failed_callback self;
     _decode_key_callback := _decode_key_callback self;
     _encode_key_callback := _encode_key_callback self |}.

Definition set_verify_claims_failed_callback (self : JWTManager) (v : unit → Response) : JWTManager :=
  {| _user_claims_callback := _user_claims_callback self;
     _user_identity_callback := _user_identity_callback self;
     _expired_token_callback := _expired_token_callback self;
     _invalid_token_callback := _invalid_token_callback self;
     _unauthorized_callback := _unauthorized_callback self;
     _needs_fresh_token_callback := _needs_fresh_token_callback self;
     _revoked_token_callback := _revoked_token_callback self;
     _user_loader_callback := _user_loader_callback self;
     _user_loader_error_callback := _user_loader_error_callback self;
     _token_in_blacklist_callback := _token_in_blacklist_callback self;
     _claims_verification_callback := _claims_verification_callback self;
     _verify_claims_failed_callback := v;
     _decode_key_callback := _decode_key_callback self;
     _encode_key_callback := _encode_key_callback self |}.

Definition set_decode_key_callback (self : JWTManager) (v : gmap string claim → Key) : JWTManager :=
  {| _user_claims_callback := _user_claims_callback self;
     _user_identity_callback := _user_identity_callback self;
     _expired_token_callback := _expired_token_callback self;
     _invalid_token_callback := _invalid_token_callback self;
     _unauthorized_callback := _unauthorized_callback self;
     _needs_fresh_token_callback := _needs_fresh_token_callback self;
     _revoked_token_callback := _revoked_token_callback self;
     _user_loader_callback := _user_loader_callback self;
     _user_loader_error_callback := _user_loader_error_callback self;
     _token_in_blacklist_callback := _token_in_blacklist_callback self;
     _claims_verification_callback := _claims_verification_callback self;
     _verify_claims_failed_callback := _verify_claims_failed_callback self;
     _decode_key_callback := v;
     _encode_key_callback := _encode_key_callback self |}.

Definition set_encode_key_callback (self : JWTManager) (v : Obj → Key) : JWTManager :=
  {| _user_claims_callback := _user_claims_callback self;
     _user_identity_callback := _user_identity_callback self;
     _expired_token_callback := _expired_token_callback self;
     _invalid_token_callback := _invalid_token_callback self;
     _unauthorized_callback := _unauthorized_callback self;
     _needs_fresh_token_callback := _needs_fresh_token_callback self;
     _revoked_token_callback := _revoked_token_callback self;
     _user_loader_callback := _user_loader_callback self;
     _user_loader_error_callback := _user_loader_error_callback self;
     _token_in_blacklist_callback := _token_in_blacklist_callback self;
     _claims_verification_callback := _claims_verification_callback self;
     _verify_claims_failed_callback := _verify_claims_failed_callback self;
     _decode_key_callback := _decode_key_callback self;
     _encode_key_callback := v |}.

(** The three loaders declared [async def]: a call returns a coroutine over
    the manager, and the assignment happens when it is awaited. *)

Definition user_claims_loader (callback : Obj → gmap string Json)
    : coroutine JWTManager (Obj → gmap string Json) :=
  Coro (λ self, (callback, set_user_claims_callback self callback)).

Definition user_identity_loader (callback : Obj → Identity)
    : coroutine JWTManager (Obj → Identity) :=
  Coro (λ self, (callback, set_user_identity_callback self callback)).

Definition expired_token_loader (callback : unit → Response)
    : coroutine JWTManager (unit → Response) :=
  Coro (λ self, (callback, set_expired_token_callback self callback)).

(** The eleven loaders declared with a plain [def]. *)

Definition invalid_token_loader (self : JWTManager) (callback : string → Response)
    : JWTManager * (string → Response) :=
  (set_invalid_token_callback self callback, callback).

Definition unauthorized_loader (self : JWTManager) (callback : string → Response)
    : JWTManager * (string → Response) :=
  (set_unauthorized_callback self callback, callback).

Definition needs_fresh_token_loader (self : JWTManager) (callback : unit → Response)
    : JWTManager * (unit → Response) :=
  (set_needs_fresh_token_callback self callback, callback).

Definition revoked_token_loader (self : JWTManager) (callback : unit → Response)
    : JWTManager * (unit → Response) :=
  (set_revoked_token_callback self callback, callback).

Definition user_loader_callback_loader (self : JWTManager) (callback : Identity → option User)
    : JWTManager * (Identity → option User) :=
  (set_user_loader_callback self (Some callback), callback).

Definition user_loader_error_loader (self : JWTManager) (callback : option Identity → Response)
    : JWTManager * (option Identity → Response) :=
  (set_user_loader_error_callback self callback, callback).

Definition token_in_blacklist_loader (self : JWTManager) (callback : gmap string claim → bool)
    : JWTManager * (gmap string claim → bool) :=
  (set_token_in_blacklist_callback self (Some callback), callback).

Definition claims_verification_loader (self : JWTManager) (callback : gmap string Json → bool)
    : JWTManager * (gmap string Json → bool) :=
  (set_claims_verification_callback self callback, callback).

Definition claims_verification_failed_loader (self : JWTManager) (callback : unit → Response)
    : JWTManager * (unit → Response) :=
  (set_verify_claims_failed_callback self callback, callback).

Definition decode_key_loader (self : JWTManager) (callback : gmap string claim → Key)
    : JWTManager * (gmap string claim → Key) :=
  (set_decode_key_callback self callback, callback).

Definition encode_key_loader (self : JWTManager) (callback : Obj → Key)
    : JWTManager * (Obj → Key) :=
  (set_encode_key_callback self callback, callback).

(** *** The registry, entry by entry *)

(** The type of the callback stored under each name. *)
Definition hook_ty (h : Hook) : Type :=
  match h with
  | user_claims => Obj → gmap string Json
  | user_identity => Obj → Identity
  | expired_token => unit → Response
  | invalid_token => string → Response
  | unauthorized => string → Response
  | needs_fresh_token => unit → Response
  | revoked_token => unit → Response
  | user_loader => Identity → option User
  | user_loader_error => option Identity → Response
  | token_in_blacklist => gmap string claim → bool
  | claims_verification => gmap string Json → bool
  | verify_claims_failed => unit → Response
  | decode_key => gmap string claim → Key
  | encode_key => Obj → Key
  end.

(** The attribute stored under a name: [None] is Python's [None]. *)
Definition hook_value (self : JWTManager) (h : Hook) : option (hook_ty h) :=
  match h with
  | user_claims => Some (_user_claims_callback self)
  | user_identity => Some (_user_identity_callback self)
  | expired_token => Some (_expired_token_callback self)
  | invalid_token => Some (_invalid_token_callback self)
  | unauthorized => Some (_unauthorized_callback self)
  | needs_fresh_token => Some (_needs_fresh_token_callback self)
  | revoked_token => Some (_revoked_token_callback self)
  | user_loader => _user_loader_callback self
  | user_loader_error => Some (_user_loader_error_callback self)
  | token_in_blacklist => _token_in_blacklist_callback self
  | claims_verification => Some (_claims_verification_callback self)
  | verify_claims_failed => Some (_verify_claims_failed_callback self)
  | decode_key => Some (_decode_key_callback self)
  | encode_key => Some (_encode_key_callback self)
  end.

Definition hook_is_set (self : JWTManager) (h : Hook) : bool :=
  bool_decide (is_Some (hook_value self h)).

(** The default [__init__] stores under each name; the two optional entries
    have none. *)
Definition default_of `{DefaultCallbacks} (h : Hook) : option (hook_ty h) :=
  match h with
  | user_claims => Some default_user_claims_callback
  | user_identity => Some default_user_identity_callback
  | expired_token => Some default_expired_token_callback
  | invalid_token => Some default_invalid_token_callback
  | unauthorized => Some default_unauthorized_callback
  | needs_fresh_token => Some default_needs_fresh_token_callback
  | revoked_token => Some default_revoked_token_callback
  | user_loader => None
  | user_loader_error => Some default_user_loader_error_callback
  | token_in_blacklist => None
  | claims_verification => Some default_claims_verification_callback
  | verify_claims_failed => Some default_verify_claims_failed_callback
  | decode_key => Some default_decode_key_callback
  | encode_key => Some default_encode_key_callback
  end.

(** The entries [__init__] leaves at [None]. *)
Definition optional_hook (h : Hook) : bool :=
  match h with user_loader | token_in_blacklist => true | _ => false end.

(** The entries whose loader is declared [async def]. *)
Definition iscoroutinefunction (h : Hook) : bool :=
  match h with
  | user_claims | user_identity | expired_token => true
  | _ => false
  end.

(** The loader of an entry applied to a callback, the way a decorator
    applies it ([@jwt.invalid_token_loader]): a plain call.  For the three
    [async def] loaders the call only builds a coroutine object. *)
Definition call_loader (h : Hook) : hook_ty h → JWTManager → JWTManager :=
  match h return hook_ty h → JWTManager → JWTManager with
  | user_claims => λ cb self, let _coro := user_claims_loader cb in self
  | user_identity => λ cb self, let _coro := user_identity_loader cb in self
  | expired_token => λ cb self, let _coro := expired_token_loader cb in self
  | invalid_token => λ cb self, (invalid_token_loader self cb).1
  | unauthorized => λ cb self, (unauthorized_loader self cb).1
  | needs_fresh_token => λ cb self, (needs_fresh_token_loader self cb).1
  | revoked_token => λ cb self, (revoked_token_loader self cb).1
  | user_loader => λ cb self, (user_loader_callback_loader self cb).1
  | user_loader_error => λ cb self, (user_loader_error_loader self cb).1
  | token_in_blacklist => λ cb self, (token_in_blacklist_loader self cb).1
  | claims_verification => λ cb self, (claims_verification_loader self cb).1
  | verify_claims_failed =>
      λ cb self, (claims_verification_failed_loader self cb).1
  | decode_key => λ cb self, (decode_key_loader self cb).1
  | encode_key => λ cb self, (encode_key_loader self cb).1
  end.

(** *** The configuration object and the environment *)

(** Modelled from the spec: the process-wide [config] object (config.py is
    not among the sources), as the typed view of the options of section 6
    that the two issuing methods read. *)
Record Config := {
  token_location : list string;
  cookie_csrf_protect : bool;
  access_expires : timedelta;
  refresh_expires : timedelta;
  algorithm : string;
  identity_claim_key : string;
  user_claims_key : string;
  user_claims_in_refresh_token : bool;
  json_encoder : Encoder
}.

(** Modelled from the spec: [config.csrf_protect], "CSRF protection enabled
    for that token's transport": the CSRF toggle is on and tokens travel in
    cookies, the one transport the CSRF guard applies to (sections 4.2 and
    4.3). *)
Definition csrf_protect (cfg : Config) : bool :=
  bool_decide ("cookies" ∈ token_location cfg) && cookie_csrf_protect cfg.

(** What an encoder reads from the outside world: the clock and the random
    value it uses as CSRF token. *)
Record Env := { env_now : Z; env_csrf : string }.

(** The two functions of tokens.py the manager calls (not among the
    sources), with the keyword arguments of the calls, in their order. *)
Class TokenEncoders := {
  encode_refresh_token :
    Env → Identity → Key → string → timedelta → option (gmap string Json) →
    bool → string → string → Encoder → token_string;
  encode_access_token :
    Env → Identity → Key → string → timedelta → bool →
    option (gmap string Json) → bool → string → string → Encoder →
    token_string
}.

(** *** Issuing tokens *)

Definition _create_refresh_token `{TokenEncoders} (self : JWTManager)
    (cfg : Config) (env : Env) (identity : Obj)
    (expires_delta : option timedelta) : traced token_string :=
  let expires_delta := default (refresh_expires cfg) expires_delta in
  user_claims ←
    (if user_claims_in_refresh_token cfg
     then c ← call user_claims (ArgObj identity)
                   (_user_claims_callback self identity);
          mret (Some c)
     else mret None);
  id ← call user_identity (ArgObj identity)
            (_user_identity_callback self identity);
  secret ← call encode_key (ArgObj identity)
                (_encode_key_callback self identity);
  mret (encode_refresh_token env id secret (algorithm cfg) expires_delta
          user_claims (csrf_protect cfg) (identity_claim_key cfg)
          (user_claims_key cfg) (json_encoder cfg)).

Definition _create_access_token `{TokenEncoders} (self : JWTManager)
    (cfg : Config) (env : Env) (identity : Obj) (fresh : bool)
    (expires_delta : option timedelta) : traced token_string :=
  let expires_delta := default (access_expires cfg) expires_delta in
  id ← call user_identity (ArgObj identity)
            (_user_identity_callback self identity);
  secret ← call encode_key (ArgObj identity)
                (_encode_key_callback self identity);
  user_claims ← call user_claims (ArgObj identity)
                     (_user_claims_callback self identity);
  mret (encode_access_token env id secret (algorithm cfg) expires_delta
          fresh (Some user_claims) (csrf_protect cfg)
          (identity_claim_key cfg) (user_claims_key cfg) (json_encoder cfg)).

(** *** The token codec *)

(** The signing library, an opaque sign/verify primitive. *)
Class Signer := {
  sign : string → Key → gmap string claim → Sig;
  verify : string → Key → gmap string claim → Sig → bool
}.

(** The claim names the codec fixes itself; the names of the identity and
    of the custom claims come from the configuration. *)
Definition reserved_claims : list string :=
  [ "token_type"; "fresh"; "issued_at"; "expires_at"; "not_before";
    "csrf_value" ].

(** Modelled from the spec: [encode(identity, token_type, fresh,
    expires_delta, custom_claims?)] of section 4.1 (tokens.py is not among
    the sources).  The payload holds the fields of section 3; the identity
    is merged under the configured identity key, the custom claims, when
    given, under the configured claims key; a CSRF value is added when CSRF
    protection is asked for; the whole is signed with the resolved key. *)
Definition encode `{Signer} (env : Env) (identity : Identity)
    (ty : token_type) (fresh : bool) (expires_delta : timedelta)
    (custom_claims : option (gmap string Json)) (csrf : bool)
    (secret : Key) (algorithm idkey uckey : string) : token_string :=
  let now := env_now env in
  let p : gmap string claim :=
    <["expires_at" := ClTime (now + total_seconds expires_delta)]>
      (<["issued_at" := ClTime now]>
        (<["fresh" := ClBool fresh]>
          (<["token_type" := ClType ty]> ∅))) in
  let p := <[idkey := ClIdentity identity]> p in
  let p := match custom_claims with
           | Some c => <[uckey := ClClaims c]> p
           | None => p
           end in
  let p := if csrf then <["csrf_value" := ClStr (env_csrf env)]> p else p in
  {| tok_alg := algorithm; tok_claims := p;
     tok_sig := sign algorithm secret p |}.

(** Modelled from the spec: the two encoders of tokens.py.  A refresh token
    is encoded with token type refresh and no freshness. *)
Global Instance spec_encoders `{Signer} : TokenEncoders := {|
  encode_refresh_token env identity secret algorithm expires_delta
      user_claims csrf idkey uckey _ :=
    encode env identity refresh false expires_delta user_claims csrf secret
           algorithm idkey uckey;
  encode_access_token env identity secret algorithm expires_delta fresh
      user_claims csrf idkey uckey _ :=
    encode env identity access fresh expires_delta user_claims csrf secret
           algorithm idkey uckey
|}.

(** Modelled from the spec: the failures of [decode], section 4.1. *)
Inductive decode_error := Expired | Invalid | Malformed.

Definition as_identity (c : claim) : option Identity :=
  match c with ClIdentity i => Some i | _ => None end.

Definition as_type (c : claim) : option token_type :=
  match c with ClType t => Some t | _ => None end.

Definition as_bool (c : claim) : option bool :=
  match c with ClBool b => Some b | _ => None end.

Definition as_time (c : claim) : option Z :=
  match c with ClTime t => Some t | _ => None end.

Definition as_str (c : claim) : option string :=
  match c with ClStr s => Some s | _ => None end.

Definition as_claims (c : claim) : option (gmap string Json) :=
  match c with ClClaims m => Some m | _ => None end.

(** A claim that may be absent, but must have the right shape when present. *)
Definition optional {A} (f : claim → option A) (c : option claim)
    : option (option A) :=
  match c with
  | None => Some None
  | Some c => Some <$> f c
  end.

(** Modelled from the spec: reading the fields of section 3 back from a
    payload; a token without custom claims has the empty mapping. *)
Definition parse_claims (idkey uckey : string) (p : gmap string claim)
    : option Token :=
  i ← p !! idkey ≫= as_identity;
  ty ← p !! "token_type" ≫= as_type;
  f ← p !! "fresh" ≫= as_bool;
  iat ← p !! "issued_at" ≫= as_time;
  exp ← p !! "expires_at" ≫= as_time;
  nbf ← optional as_time (p !! "not_before");
  csrf ← optional as_str (p !! "csrf_value");
  cc ← optional as_claims (p !! uckey);
  Some {| identity := i; tok_type := ty; fresh := f; issued_at := iat;
          expires_at := exp; not_before := nbf; csrf_value := csrf;
          custom_claims := default ∅ cc |}.

(** Modelled from the spec: [decode(token_string)] of section 4.1.  A token
    that the primitive rejects is invalid; one whose payload lacks a field
    is malformed; one whose signature is valid but whose expiry has passed
    fails with the expiry-specific error. *)
Definition decode_jwt `{Signer} (now : Z) (key : Key)
    (algorithm idkey uckey : string) (tok : token_string)
    : decode_error + Token :=
  if negb (bool_decide (tok_alg tok = algorithm)) then inl Invalid
  else if negb (verify algorithm key (tok_claims tok) (tok_sig tok))
  then inl Invalid
  else match parse_claims idkey uckey (tok_claims tok) with
       | None => inl Malformed
       | Some t =>
           if bool_decide (expires_at t ≤ now)%Z then inl Expired
           else match not_before t with
                | Some nbf =>
                    if bool_decide (now < nbf)%Z then inl Invalid else inr t
                | None => inr t
                end
       end.

(** Modelled from the spec: decoding through the manager, section 4.1: the
    verification key is resolved by the decode-key callback from the
    unverified claims of the token. *)
Definition decode_token `{Signer} (self : JWTManager) (cfg : Config)
    (now : Z) (tok : token_string) : traced (decode_error + Token) :=
  key ← call decode_key (ArgClaims (tok_claims tok))
             (_decode_key_callback self (tok_claims tok));
  mret (decode_jwt now key (algorithm cfg) (identity_claim_key cfg)
                   (user_claims_key cfg) tok).

(** The configured claim names collide neither with each other nor with the
    names the codec fixes. *)
Definition claim_keys_ok (cfg : Config) : bool :=
  bool_decide (identity_claim_key cfg ≠ user_claims_key cfg)
  && bool_decide (identity_claim_key cfg ∉ reserved_claims)
  && bool_decide (user_claims_key cfg ∉ reserved_claims).

(** The decode-key callback resolves, for the tokens issued for [obj], a key
    under which the primitive accepts what the encode key signed. *)
Definition keys_agree `{Signer} (self : JWTManager) (cfg : Config)
    (obj : Obj) : Prop :=
  ∀ p, verify (algorithm cfg) (_decode_key_callback self p) p
         (sign (algorithm cfg) (_encode_key_callback self obj) p) = true.

(** *** The identity-loading step *)



(** *** Observations used in the statements *)



(** The token a successful decoding returns. *)
Definition token_of (r : decode_error + Token) : option Token :=
  match r with inr t => Some t | inl _ => None end.

(** The CSRF value an encoded token carries. *)
Definition token_csrf (tok : token_string) : option string :=
  tok_claims tok !! "csrf_value" ≫= as_str.

(** The freshness flag an encoded token carries. *)
Definition token_fresh (tok : token_string) : option bool :=
  tok_claims tok !! "fresh" ≫= as_bool.

End Model.

(** ** A concrete application

    Strings for identities, claims and keys; a response is a status code and
    a body.  The toy signing primitive signs with the key itself and accepts
    a signature that equals the verification key. *)
Module Demo.

Global Instance demo_domain : Domain := {|
  Obj := string;
  Identity := string;
  Json := string;
  Key := string;
  Sig := string;
  User := string;
  Response := Z * string;
  Encoder := unit
|}.

Global Instance demo_defaults : @DefaultCallbacks demo_domain :=
  @Build_DefaultCallbacks demo_domain
    (λ _ : string, (∅ : gmap string string))
    (λ o : string, o)
    (λ _, (401, "Token has expired"))
    (λ m, (422, m))
    (λ m, (401, m))
    (λ _, (401, "Fresh token required"))
    (λ _, (401, "Token has been revoked"))
    (λ i : option string, (401, "Error loading the user " +:+ default "" i))
    (λ _, true)
    (λ _, (400, "User claims verification failed"))
    (λ _, "secret")
    (λ _ : string, "secret").

Global Instance demo_signer : @Signer demo_domain :=
  @Build_Signer demo_domain
    (λ (alg : string) (k : string) _, k)
    (λ (alg : string) (k : string) _ (s : string), bool_decide (s = k)).

(** The manager as [JWTManager()] builds it. *)
Definition jwt : @JWTManager demo_domain := (__init__ None).1.

(** The documented defaults of the options the issuing methods read. *)
Definition default_config : @Config demo_domain := {|
  token_location := ["headers"];
  cookie_csrf_protect := true;
  access_expires := Timedelta 0 900 0;
  refresh_expires := Timedelta 30 0 0;
  algorithm := "HS256";
  identity_claim_key := "identity";
  user_claims_key := "user_claims";
  user_claims_in_refresh_token := false;
  json_encoder := () : @Encoder demo_domain
|}.

(** The same, with tokens carried in cookies. *)
Definition cookie_config : @Config demo_domain := {|
  token_location := ["cookies"];
  cookie_csrf_protect := true;
  access_expires := Timedelta 0 900 0;
  refresh_expires := Timedelta 30 0 0;
  algorithm := "HS256";
  identity_claim_key := "identity";
  user_claims_key := "user_claims";
  user_claims_in_refresh_token := true;
  json_encoder := () : @Encoder demo_domain
|}.

Definition env0 : Env := {| env_now := 1000; env_csrf := "nonce" |}.

(** A manager with a claims callback and a user loader that knows nobody. *)
Definition jwt_admin : @JWTManager demo_domain :=
  let self := set_user_claims_callback jwt
                (λ _ : string, {["role" := "admin"]} : gmap string string) in
  (user_loader_callback_loader self (λ _ : string, None)).1.

(** A manager whose encode key depends on the identity it signs for. *)
Definition jwt_tenants : @JWTManager demo_domain :=
  (encode_key_loader jwt (λ o : string, "key-" +:+ o)).1.


(** A fresh application bound to the manager, an empty request context and
    an exception of each class. *)
Definition app0 : @Sanic demo_domain := init_app (new_app ∅).

Definition ctx0 : @Ctx demo_domain := {| ctx_jwt := None |}.

Definition raise (k : ErrorKind) : Exn :=
  {| exn_kind := k; exn_msg := "rejected" |}.

(** An application that chose its own signing algorithm. *)
Definition app_rs256 : @Sanic demo_domain :=
  new_app {["JWT_ALGORITHM" := CStr "RS256"]}.

(** The documented defaults, but with refresh tokens that live sixty days
    and embed the custom claims. *)
Definition long_refresh_config : @Config demo_domain := {|
  token_location := ["headers"];
  cookie_csrf_protect := true;
  access_expires := Timedelta 0 900 0;
  refresh_expires := Timedelta 60 0 0;
  algorithm := "HS256";
  identity_claim_key := "identity";
  user_claims_key := "user_claims";
  user_claims_in_refresh_token := true;
  json_encoder := () : @Encoder demo_domain
|}.

(** The documented defaults, but with access tokens that live five
    minutes. *)
Definition short_access_config : @Config demo_domain := {|
  token_location := ["headers"];
  cookie_csrf_protect := true;
  access_expires := Timedelta 0 300 0;
  refresh_expires := Timedelta 30 0 0;
  algorithm := "HS256";
  identity_claim_key := "identity";
  user_claims_key := "user_claims";
  user_claims_in_refresh_token := false;
  json_encoder := () : @Encoder demo_domain
|}.

(** An application with an option of its own, outside the extension's
    names. *)
Definition app_timeout : @Sanic demo_domain :=
  new_app {["REQUEST_TIMEOUT" := CStr "60"]}.

End Demo.

(** * Properties *)

(** ** The configuration defaults *)

Lemma setdefault_keeps (k k' : string) (v v' : cfg_value)
    (cfg : gmap string cfg_value) :
  cfg !! k = Some v → setdefault k' v' cfg !! k = Some v.
Proof.
  intros Hk. unfold setdefault.
  destruct (cfg !! k') eqn:Hk'; [done|].
  rewrite lookup_insert_ne; [done|]. intros ->. congruence.
Qed.

Lemma setdefaults_keep (l : list (string * cfg_value)) (k : string)
    (v : cfg_value) (cfg : gmap string cfg_value) :
  cfg !! k = Some v →
  foldl (λ c kv, setdefault kv.1 kv.2 c) cfg l !! k = Some v.
Proof.
  revert cfg. induction l as [|[k' v'] l IH]; intros cfg Hk; [done|].
  simpl. apply IH. by apply setdefault_keeps.
Qed.

Lemma apply_defaults_keeps (k : string) (v : cfg_value)
    (cfg : gmap string cfg_value) :
  cfg !! k = Some v → apply_defaults cfg !! k = Some v.
Proof. apply setdefaults_keep. Qed.

Lemma setdefault_sets (k : string) (v : cfg_value)
    (cfg : gmap string cfg_value) :
  cfg !! k = None → setdefault k v cfg !! k = Some v.
Proof.
  intros Hk. unfold setdefault. rewrite Hk. apply lookup_insert_eq.
Qed.

Lemma setdefault_other (k k' : string) (v : cfg_value)
    (cfg : gmap string cfg_value) :
  k ≠ k' → setdefault k' v cfg !! k = cfg !! k.
Proof.
  intros Hne. unfold setdefault.
  destruct (cfg !! k'); [done|]. by rewrite lookup_insert_ne.
Qed.

(** The first [setdefault] on a name decides its value when the name was
    absent. *)
Lemma setdefaults_first (l : list (string * cfg_value)) (k : string)
    (cfg : gmap string cfg_value) :
  cfg !! k = None →
  foldl (λ c kv, setdefault kv.1 kv.2 c) cfg l !! k
  = from_option Some (cfg !! k) (first_value k l).
Proof.
  revert cfg. induction l as [|[k' v'] l IH]; intros cfg Hk; [done|].
  simpl. destruct (decide (k' = k)) as [->|Hne]; simpl.
  - apply setdefaults_keep. by apply setdefault_sets.
  - rewrite IH by (rewrite setdefault_other; done).
    by rewrite setdefault_other.
Qed.

Lemma apply_defaults_absent (k : string) (cfg : gmap string cfg_value) :
  cfg !! k = None →
  apply_defaults cfg !! k = first_value k default_options.
Proof.
  intros Hk. unfold apply_defaults. rewrite setdefaults_first by done.
  rewrite Hk. by destruct (first_value k default_options).
Qed.

Section Properties.

Context `{Domain} `{!DefaultCallbacks} `{!Signer}.

Lemma config_set_exception_callbacks (app : Sanic) :
  config (_set_exception_callbacks app) = config app.
Proof. reflexivity. Qed.

(** [init_app] never touches the configuration. *)
Lemma config_init_app (app : Sanic) : config (init_app app) = config app.
Proof. reflexivity. Qed.

(** Awaiting the coroutine runs the body. *)
Lemma config_awaited (app : Sanic) :
  config (await _set_default_configuration_options app).2
  = apply_defaults (config app).
Proof. reflexivity. Qed.

Lemma awaited_default_value (app : Sanic) (k : string) (v : cfg_value) :
  first_value k default_options = Some v →
  config app !! k = None →
  config (await _set_default_configuration_options app).2 !! k = Some v.
Proof.
  intros Hf Hk. rewrite config_awaited.
  by rewrite apply_defaults_absent.
Qed.

(** What the body of [_set_default_configuration_options] would do if it
    ran: every documented default is in place wherever the application set
    nothing. *)
Lemma awaited_defaults (app : Sanic) :
  Forall (λ kv, config app !! kv.1 = None →
                config (await _set_default_configuration_options app).2
                  !! kv.1 = Some kv.2)
         documented_defaults.
Proof.
  unfold documented_defaults.
  repeat apply Forall_cons_2; try apply Forall_nil_2;
    apply awaited_default_value; vm_compute; reflexivity.
Qed.

(** C10: an option the application has set before [init_app] keeps its
    value: [init_app] leaves it alone, and so does the default-setting body
    when it is run, since [setdefault] only fills in absent names. *)
Theorem init_app_keeps_supplied_options (app : Sanic) (k : string)
    (v : cfg_value) :
  config app !! k = Some v →
  config (init_app app) !! k = Some v
  ∧ config (await _set_default_configuration_options app).2 !! k = Some v.
Proof.
  intros Hk. split.
  - by rewrite config_init_app.
  - rewrite config_awaited. by apply apply_defaults_keeps.
Qed.

(** C3: [init_app] on an application that set nothing leaves every
    documented option unset: the configuration after [init_app] is the
    configuration before it, because the coroutine that holds the
    [setdefault] calls is dropped without being awaited. *)
Theorem init_app_sets_no_default :
  (∀ app : Sanic, config (init_app app) = config app)
  ∧ Forall (λ kv, config (init_app (new_app ∅)) !! kv.1 = None)
           documented_defaults.
Proof.
  split; [apply config_init_app|].
  apply Forall_forall. intros kv _. rewrite config_init_app. simpl.
  apply lookup_empty.
Qed.

(** ** The exception handlers *)

(** The table [init_app] builds on a fresh application, handler by
    handler. *)
Lemma init_app_handlers (cfg : gmap string cfg_value) :
  error_handlers (init_app (new_app cfg))
  = [ (NoAuthorizationError, handle_auth_error);
      (CSRFError, handle_csrf_error);
      (ExpiredSignatureError, handle_expired_error);
      (InvalidHeaderError, handle_invalid_header_error);
      (InvalidTokenError, handle_invalid_token_error);
      (JWTDecodeError, handle_jwt_decode_error);
      (WrongTokenError, handle_wrong_token_error);
      (RevokedTokenError, handle_revoked_token_error);
      (FreshTokenRequired, handle_fresh_token_required);
      (UserLoadError, handler_user_load_error);
      (UserClaimsVerificationError, handle_failed_user_claims_verification) ].
Proof. reflexivity. Qed.





(** ** The registry *)

(** What [__init__] stores does not depend on the application it is given. *)
Lemma init_registry (app : option Sanic) (h : Hook) :
  hook_value (__init__ app).1 h = default_of h.
Proof. destruct app, h; reflexivity. Qed.

Lemma init_sets_all_but_optional (app : option Sanic) (h : Hook) :
  hook_is_set (__init__ app).1 h = negb (optional_hook h).
Proof. destruct app, h; reflexivity. Qed.

Lemma call_loader_sets (h : Hook) (cb : hook_ty h) (self : JWTManager) :
  iscoroutinefunction h = false →
  hook_value (call_loader h cb self) h = Some cb.
Proof. destruct h; simpl; intros Hs; try discriminate Hs; reflexivity. Qed.

Lemma call_loader_frame (h h' : Hook) (cb : hook_ty h) (self : JWTManager) :
  h' ≠ h → hook_value (call_loader h cb self) h' = hook_value self h'.
Proof. destruct h, h'; intros Hne; try reflexivity; by destruct Hne. Qed.

(** A loader declared [async def] registers nothing when it is merely
    called, and registers its callback once the coroutine is awaited. *)
Lemma async_loader_needs_await (self : JWTManager)
    (cb : Obj → gmap string Json) :
  hook_value (call_loader user_claims cb self) user_claims
  = hook_value self user_claims
  ∧ hook_value (await (user_claims_loader cb) self).2 user_claims = Some cb.
Proof. split; reflexivity. Qed.

(** C4, as the code has it: construction stores the default callback under
    every name but the two optional ones (user loader and blacklist check),
    which it leaves at [None]; a registration through a loader declared with
    a plain [def] replaces the callback stored under its name, the last one
    registered being the one in place, and leaves the other names alone. *)
Theorem registry_seeded_and_last_registration_wins (app : option Sanic)
    (self : JWTManager) (h h' : Hook) (cb1 cb2 : hook_ty h) :
  iscoroutinefunction h = false →
  hook_value (__init__ app).1 h' = default_of h'
  ∧ hook_is_set (__init__ app).1 h' = negb (optional_hook h')
  ∧ hook_value (call_loader h cb1 self) h = Some cb1
  ∧ hook_value (call_loader h cb2 (call_loader h cb1 self)) h = Some cb2
  ∧ (h' ≠ h → hook_value (call_loader h cb1 self) h' = hook_value self h').
Proof.
  intros Hsync. split; [apply init_registry|].
  split; [apply init_sets_all_but_optional|].
  split; [by apply call_loader_sets|].
  split; [by apply call_loader_sets|].
  apply call_loader_frame.
Qed.

(** ** Issuing tokens *)

(** The two issuing methods, with the encoders of the codec. *)
Lemma create_refresh_token_encode (self : JWTManager) (cfg : Config)
    (env : Env) (obj : Obj) (delta : option timedelta) :
  (_create_refresh_token self cfg env obj delta).1
  = encode env (_user_identity_callback self obj) refresh false
      (default (refresh_expires cfg) delta)
      (if user_claims_in_refresh_token cfg
       then Some (_user_claims_callback self obj) else None)
      (csrf_protect cfg) (_encode_key_callback self obj) (algorithm cfg)
      (identity_claim_key cfg) (user_claims_key cfg).
Proof.
  unfold _create_refresh_token.
  destruct (user_claims_in_refresh_token cfg); reflexivity.
Qed.

Lemma create_access_token_encode (self : JWTManager) (cfg : Config)
    (env : Env) (obj : Obj) (f : bool) (delta : option timedelta) :
  (_create_access_token self cfg env obj f delta).1
  = encode env (_user_identity_callback self obj) access f
      (default (access_expires cfg) delta)
      (Some (_user_claims_callback self obj))
      (csrf_protect cfg) (_encode_key_callback self obj) (algorithm cfg)
      (identity_claim_key cfg) (user_claims_key cfg).
Proof. reflexivity. Qed.

(** The freshness claim of an encoded token is the flag it was encoded
    with, whatever names the configuration chose. *)
Lemma encode_fresh (env : Env) (i : Identity) (ty : token_type) (f : bool)
    (d : timedelta) (cc : option (gmap string Json)) (csrf : bool)
    (secret : Key) (alg idkey uckey : string) (b : bool) :
  token_fresh (encode env i ty f d cc csrf secret alg idkey uckey) = Some b →
  b = f.
Proof.
  unfold token_fresh, encode. cbn [tok_claims].
  destruct csrf, cc as [c|];
    repeat (rewrite lookup_insert; case_decide; simplify_eq/=; try done);
    congruence.
Qed.

(** A decoded token has the freshness flag its payload carries. *)
Lemma decode_jwt_fresh (now : Z) (key : Key) (alg idkey uckey : string)
    (tok : token_string) (t : Token) :
  decode_jwt now key alg idkey uckey tok = inr t →
  token_fresh tok = Some (fresh t).
Proof.
  unfold decode_jwt, token_fresh, parse_claims. intros Hd.
  repeat case_match; simplify_eq; simplify_option_eq; done.
Qed.

(** C5: a token issued by [_create_refresh_token] never carries
    [fresh = true], for every identity and every [expires_delta]: its
    freshness claim is not true, and no decoding of it, under any key,
    configuration or clock, yields a token whose fresh flag is set. *)
Theorem refresh_token_never_fresh (self decoder : JWTManager)
    (cfg cfg' : Config) (env : Env) (obj : Obj) (delta : option timedelta)
    (now : Z) :
  let tok := (_create_refresh_token self cfg env obj delta).1 in
  token_fresh tok ≠ Some true
  ∧ fresh <$> token_of (decode_token decoder cfg' now tok).1 ≠ Some true.
Proof.
  intros tok. subst tok. rewrite create_refresh_token_encode.
  split.
  - intros Hf. by apply encode_fresh in Hf.
  - unfold decode_token. cbn [fst mbind traced_bind call mret traced_ret].
    destruct (decode_jwt _ _ _ _ _ _) as [e|t] eqn:Hd; [done|].
    apply decode_jwt_fresh in Hd. simpl. intros [= Hf].
    rewrite Hf in Hd. by apply encode_fresh in Hd.
Qed.

(** C6: [_create_refresh_token] with the claims-in-refresh-token option
    false, the value the default-setting body gives it, hands the encoder no
    custom claims and does not call the user-claims callback; with the
    option true it calls the callback once, first, and hands its result to
    the encoder.  This holds for any pair of encoders. *)
Theorem refresh_claims_follow_option (E : TokenEncoders)
    (self : JWTManager) (cfg : Config) (env : Env) (obj : Obj)
    (delta : option timedelta) :
  first_value "JWT_CLAIMS_IN_REFRESH_TOKEN" default_options
  = Some (CBool false)
  ∧ _create_refresh_token self cfg env obj delta
    = if user_claims_in_refresh_token cfg
      then (encode_refresh_token env (_user_identity_callback self obj)
              (_encode_key_callback self obj) (algorithm cfg)
              (default (refresh_expires cfg) delta)
              (Some (_user_claims_callback self obj)) (csrf_protect cfg)
              (identity_claim_key cfg) (user_claims_key cfg)
              (json_encoder cfg),
            [ Called user_claims (ArgObj obj);
              Called user_identity (ArgObj obj);
              Called encode_key (ArgObj obj) ])
      else (encode_refresh_token env (_user_identity_callback self obj)
              (_encode_key_callback self obj) (algorithm cfg)
              (default (refresh_expires cfg) delta)
              None (csrf_protect cfg)
              (identity_claim_key cfg) (user_claims_key cfg)
              (json_encoder cfg),
            [ Called user_identity (ArgObj obj);
              Called encode_key (ArgObj obj) ]).
Proof.
  split; [vm_compute; reflexivity|].
  unfold _create_refresh_token.
  destruct (user_claims_in_refresh_token cfg); reflexivity.
Qed.

(** The CSRF value of an encoded token is there exactly when the encoder was
    asked for one, whatever names the configuration chose. *)
Lemma encode_csrf (env : Env) (i : Identity) (ty : token_type) (f : bool)
    (d : timedelta) (cc : option (gmap string Json)) (csrf : bool)
    (secret : Key) (alg idkey uckey : string) :
  token_csrf (encode env i ty f d cc csrf secret alg idkey uckey)
  = if csrf then Some (env_csrf env) else None.
Proof.
  unfold token_csrf, encode. cbn [tok_claims].
  destruct csrf, cc as [c|];
    repeat (rewrite lookup_insert; case_decide; simplify_eq/=; try done).
Qed.

Lemma csrf_protect_cookies (cfg : Config) :
  csrf_protect cfg = true → "cookies" ∈ token_location cfg.
Proof.
  unfold csrf_protect. intros Hc. apply andb_prop in Hc as [Hc _].
  by apply bool_decide_eq_true in Hc.
Qed.

(** C7: a token issued by [_create_access_token] or [_create_refresh_token]
    carries a CSRF value exactly when CSRF protection is enabled for the
    transport of the configuration; in particular it carries none when the
    tokens do not travel in cookies. *)
Theorem csrf_value_iff_csrf_protect (self : JWTManager) (cfg : Config)
    (env : Env) (obj : Obj) (f : bool) (delta : option timedelta) :
  let acc := (_create_access_token self cfg env obj f delta).1 in
  let ref := (_create_refresh_token self cfg env obj delta).1 in
  (is_Some (token_csrf acc) ↔ csrf_protect cfg = true)
  ∧ (is_Some (token_csrf ref) ↔ csrf_protect cfg = true)
  ∧ ("cookies" ∉ token_location cfg →
     token_csrf acc = None ∧ token_csrf ref = None).
Proof.
  intros acc ref. subst acc ref.
  rewrite create_access_token_encode, create_refresh_token_encode.
  rewrite !encode_csrf.
  pose proof (csrf_protect_cookies cfg) as Hck.
  destruct (csrf_protect cfg).
  - split; [|split]; [by split; eauto..|]. intros Hno. by destruct Hno; auto.
  - split; [|split]; [split; [by intros [? ?]|done]..|done].
Qed.

(** ** Failing to load a user *)

(** The handler of [UserLoadError] calls the user-loader-error callback with
    the identity saved in the request context. *)
Lemma handler_user_load_error_identity (self : JWTManager) (ctx : Ctx)
    (e : Exn) :
  handler_user_load_error self ctx e
  = (_user_loader_error_callback self (get_jwt_identity ctx),
     [Called user_loader_error (ArgIdentity (get_jwt_identity ctx))]).
Proof. reflexivity. Qed.


(** ** Keys *)

(** C9: keys are resolved by the registered callbacks.  With an encode-key
    callback [ekey] and a decode-key callback [dkey] registered, both
    issuing methods call the encode-key entry on the object they are given
    and sign with [ekey obj], and decoding calls the decode-key entry on the
    unverified claims of the token and verifies with what it returns. *)
Theorem keys_resolved_by_callbacks (self0 : JWTManager) (cfg : Config)
    (env : Env) (obj : Obj) (f : bool) (delta : option timedelta)
    (ekey : Obj → Key) (dkey : gmap string claim → Key) (now : Z)
    (tok : token_string) :
  let self := (decode_key_loader (encode_key_loader self0 ekey).1 dkey).1 in
  let acc := _create_access_token self cfg env obj f delta in
  let ref := _create_refresh_token self cfg env obj delta in
  tok_sig acc.1 = sign (algorithm cfg) (ekey obj) (tok_claims acc.1)
  ∧ tok_sig ref.1 = sign (algorithm cfg) (ekey obj) (tok_claims ref.1)
  ∧ Called encode_key (ArgObj obj) ∈ calls_of acc
  ∧ Called encode_key (ArgObj obj) ∈ calls_of ref
  ∧ decode_token self cfg now tok
    = (decode_jwt now (dkey (tok_claims tok)) (algorithm cfg)
         (identity_claim_key cfg) (user_claims_key cfg) tok,
       [Called decode_key (ArgClaims (tok_claims tok))]).
Proof.
  intros self acc ref. subst acc ref.
  rewrite create_access_token_encode, create_refresh_token_encode.
  split; [reflexivity|]. split; [reflexivity|].
  split; [|split; [|reflexivity]].
  - unfold _create_access_token, calls_of. simpl. set_solver.
  - unfold _create_refresh_token, calls_of.
    destruct (user_claims_in_refresh_token cfg); simpl; set_solver.
Qed.

(** ** Round trip *)

Lemma not_reserved (k : string) :
  k ∉ reserved_claims →
  k ≠ "token_type" ∧ k ≠ "fresh" ∧ k ≠ "issued_at" ∧ k ≠ "expires_at"
  ∧ k ≠ "not_before" ∧ k ≠ "csrf_value".
Proof. unfold reserved_claims. set_solver. Qed.

(** Reading back the payload [encode] builds gives the fields it was built
    from, when the configured claim names do not collide. *)
Lemma parse_encode (env : Env) (i : Identity) (ty : token_type) (f : bool)
    (d : timedelta) (cc : option (gmap string Json)) (csrf : bool)
    (secret : Key) (alg idkey uckey : string) :
  idkey ≠ uckey → idkey ∉ reserved_claims → uckey ∉ reserved_claims →
  parse_claims idkey uckey
    (tok_claims (encode env i ty f d cc csrf secret alg idkey uckey))
  = Some {| identity := i; tok_type := ty; fresh := f;
            issued_at := env_now env;
            expires_at := env_now env + total_seconds d;
            not_before := None;
            csrf_value := if csrf then Some (env_csrf env) else None;
            custom_claims := default ∅ cc |}.
Proof.
  intros Hne Hi Hu.
  apply not_reserved in Hi as (Hi1 & Hi2 & Hi3 & Hi4 & Hi5 & Hi6).
  apply not_reserved in Hu as (Hu1 & Hu2 & Hu3 & Hu4 & Hu5 & Hu6).
  unfold parse_claims, encode. cbn [tok_claims].
  destruct csrf, cc as [c|]; simplify_map_eq; reflexivity.
Qed.

(** Decoding what [encode] produced, before it expires and with a key the
    primitive accepts, returns the encoded fields. *)
Lemma decode_encode (env : Env) (i : Identity) (ty : token_type) (f : bool)
    (d : timedelta) (cc : option (gmap string Json)) (csrf : bool)
    (secret key : Key) (alg idkey uckey : string) (now : Z) :
  idkey ≠ uckey → idkey ∉ reserved_claims → uckey ∉ reserved_claims →
  (let tok := encode env i ty f d cc csrf secret alg idkey uckey in
   verify alg key (tok_claims tok) (tok_sig tok) = true) →
  now < env_now env + total_seconds d →
  decode_jwt now key alg idkey uckey
    (encode env i ty f d cc csrf secret alg idkey uckey)
  = inr {| identity := i; tok_type := ty; fresh := f;
           issued_at := env_now env;
           expires_at := env_now env + total_seconds d;
           not_before := None;
           csrf_value := if csrf then Some (env_csrf env) else None;
           custom_claims := default ∅ cc |}.
Proof.
  intros Hne Hi Hu Hv Hexp. unfold decode_jwt.
  rewrite parse_encode by done.
  cbv zeta in Hv. rewrite Hv.
  cbn [tok_alg encode expires_at not_before].
  rewrite bool_decide_eq_true_2 by done. cbn [negb].
  rewrite bool_decide_eq_false_2 by lia. reflexivity.
Qed.

Lemma claim_keys_ok_spec (cfg : Config) :
  claim_keys_ok cfg = true →
  (identity_claim_key cfg ≠ user_claims_key cfg)
  ∧ (identity_claim_key cfg ∉ reserved_claims)
  ∧ (user_claims_key cfg ∉ reserved_claims).
Proof.
  unfold claim_keys_ok. intros Hk.
  apply andb_prop in Hk as [Hk Hk3]. apply andb_prop in Hk as [Hk1 Hk2].
  apply bool_decide_eq_true in Hk1, Hk2, Hk3. done.
Qed.

(** C1: decoding a token issued by [_create_access_token] or
    [_create_refresh_token] gives back the identity, the custom claims, the
    token type and the fresh flag it was encoded with: the identity the
    identity callback returned, the claims the claims callback returned (for
    a refresh token, the claims handed to the encoder: those of the callback
    when the configuration embeds them, none otherwise), the type of the
    issuing method and the fresh flag of the call (none for a refresh
    token).  The configured claim names must not collide, the decode-key
    callback must resolve a key the primitive accepts, and the token must
    not have expired. *)
Theorem decode_of_created_token (self : JWTManager) (cfg : Config)
    (env : Env) (obj : Obj) (f : bool) (delta : option timedelta)
    (now : Z) :
  claim_keys_ok cfg = true →
  keys_agree self cfg obj →
  now < env_now env + total_seconds (default (access_expires cfg) delta) →
  now < env_now env + total_seconds (default (refresh_expires cfg) delta) →
  let acc := (_create_access_token self cfg env obj f delta).1 in
  let ref := (_create_refresh_token self cfg env obj delta).1 in
  (decode_token self cfg now acc).1
  = inr {| identity := _user_identity_callback self obj;
           tok_type := access;
           fresh := f;
           issued_at := env_now env;
           expires_at := env_now env
                         + total_seconds (default (access_expires cfg) delta);
           not_before := None;
           csrf_value := if csrf_protect cfg then Some (env_csrf env)
                         else None;
           custom_claims := _user_claims_callback self obj |}
  ∧ (decode_token self cfg now ref).1
    = inr {| identity := _user_identity_callback self obj;
             tok_type := refresh;
             fresh := false;
             issued_at := env_now env;
             expires_at := env_now env
                           + total_seconds
                               (default (refresh_expires cfg) delta);
             not_before := None;
             csrf_value := if csrf_protect cfg then Some (env_csrf env)
                           else None;
             custom_claims := if user_claims_in_refresh_token cfg
                              then _user_claims_callback self obj
                              else ∅ |}.
Proof.
  intros Hkeys Hagree Hacc Href acc ref. subst acc ref.
  apply claim_keys_ok_spec in Hkeys as (Hne & Hi & Hu).
  rewrite create_access_token_encode, create_refresh_token_encode.
  unfold decode_token. cbn [fst mbind traced_bind call mret traced_ret].
  split.
  - rewrite decode_encode; [reflexivity|done..| |done].
    apply Hagree.
  - rewrite decode_encode; [|done..| |done].
    + by destruct (user_claims_in_refresh_token cfg).
    + apply Hagree.
Qed.

End Properties.

(** * The properties on the concrete application *)

Import Demo.

(** C1 on the demo application: an access token and a refresh token issued
    for ["u1"] at time 1000 decode, at time 1500, to that identity with the
    claims of the callback, the type and the fresh flag of the call. *)
Lemma decode_of_created_token_witness :
  claim_keys_ok cookie_config = true
  ∧ keys_agree jwt_admin cookie_config "u1"
  ∧ token_of (decode_token jwt_admin cookie_config 1500
                (_create_access_token jwt_admin cookie_config env0 "u1"
                   true None).1).1
    = Some {| identity := "u1" : @Identity demo_domain;
              tok_type := access; fresh := true;
              issued_at := 1000; expires_at := 1900; not_before := None;
              csrf_value := Some "nonce";
              custom_claims := {["role" := "admin"]} |}
  ∧ token_of (decode_token jwt_admin cookie_config 1500
                (_create_refresh_token jwt_admin cookie_config env0 "u1"
                   None).1).1
    = Some {| identity := "u1" : @Identity demo_domain;
              tok_type := refresh; fresh := false;
              issued_at := 1000; expires_at := 2593000; not_before := None;
              csrf_value := Some "nonce";
              custom_claims := {["role" := "admin"]} |}.
Proof.
  assert (Hk : claim_keys_ok cookie_config = true) by (vm_compute; reflexivity).
  assert (Ha : keys_agree jwt_admin cookie_config "u1")
    by (intros p; reflexivity).
  split; [exact Hk|]. split; [exact Ha|].
  destruct (decode_of_created_token jwt_admin cookie_config env0 "u1" true
              None 1500 Hk Ha) as [Hacc Href];
    [vm_compute; reflexivity..|].
  rewrite Hacc, Href. split; reflexivity.
Defined.


(** C4 as stated fails on the demo application: after construction the
    user-loader entry holds no callback. *)
Lemma init_leaves_optional_hooks_unset :
  ¬ (∀ h : Hook, hook_is_set jwt h = true).
Proof. intros Hall. specialize (Hall user_loader). discriminate Hall. Qed.

(** C4 on the demo application: two registrations through
    [invalid_token_loader]; the second is the one in place, and the
    unauthorized entry still holds its default. *)
Lemma registry_seeded_and_last_registration_wins_witness :
  let cb1 : @hook_ty demo_domain invalid_token := λ m, (422, "first " +:+ m) in
  let cb2 : @hook_ty demo_domain invalid_token := λ m, (422, "second " +:+ m) in
  iscoroutinefunction invalid_token = false
  ∧ hook_value jwt unauthorized = default_of unauthorized
  ∧ hook_is_set jwt unauthorized = true
  ∧ hook_value (call_loader invalid_token cb1 jwt) invalid_token = Some cb1
  ∧ hook_value (call_loader invalid_token cb2
                  (call_loader invalid_token cb1 jwt)) invalid_token
    = Some cb2
  ∧ hook_value (call_loader invalid_token cb1 jwt) unauthorized
    = hook_value jwt unauthorized.
Proof.
  intros cb1 cb2.
  assert (Hs : iscoroutinefunction invalid_token = false) by reflexivity.
  destruct (registry_seeded_and_last_registration_wins None jwt
              invalid_token unauthorized cb1 cb2 Hs)
    as (Hd & Hset & H1 & H2 & Hfr).
  split; [exact Hs|]. split; [exact Hd|]. split; [exact Hset|].
  split; [exact H1|]. split; [exact H2|].
  apply Hfr. discriminate.
Defined.

(** C7 on the demo application: with tokens in headers, the default, neither
    token carries a CSRF value. *)
Lemma csrf_value_iff_csrf_protect_witness :
  ("cookies" ∉ token_location default_config)
  ∧ token_csrf (_create_access_token jwt default_config env0 "u1" false
                  None).1 = None
  ∧ token_csrf (_create_refresh_token jwt default_config env0 "u1" None).1
    = None.
Proof.
  assert (Hno : "cookies" ∉ token_location default_config)
    by (intros Hin; apply list_elem_of_singleton in Hin; discriminate Hin).
  split; [exact Hno|].
  destruct (csrf_value_iff_csrf_protect jwt default_config env0 "u1" false
              None) as (_ & _ & Hnone).
  exact (Hnone Hno).
Defined.


(** C10 on the demo application: the algorithm the application chose is
    still in place after [init_app], and after the default-setting body. *)
Lemma init_app_keeps_supplied_options_witness :
  config app_rs256 !! "JWT_ALGORITHM" = Some (CStr "RS256")
  ∧ config (init_app app_rs256) !! "JWT_ALGORITHM" = Some (CStr "RS256")
  ∧ config (await _set_default_configuration_options app_rs256).2
      !! "JWT_ALGORITHM" = Some (CStr "RS256").
Proof.
  assert (Hk : config app_rs256 !! "JWT_ALGORITHM" = Some (CStr "RS256"))
    by (vm_compute; reflexivity).
  split; [exact Hk|].
  exact (init_app_keeps_supplied_options app_rs256 "JWT_ALGORITHM"
           (CStr "RS256") Hk).
Defined.

(** Two identities, two signing keys, one codec. *)
Example per_identity_keys :
  tok_sig (_create_access_token jwt_tenants default_config env0 "a" false
             None).1 = "key-a"
  ∧ tok_sig (_create_access_token jwt_tenants default_config env0 "b" false
               None).1 = "key-b".
Proof. split; reflexivity. Qed.

(** A token encoded with a lifetime of minus one second fails to decode with
    the expiry error, not as malformed. *)
Example expired_token_is_expired :
  (decode_token jwt default_config 1000
     (_create_access_token jwt default_config env0 "u1" false
        (Some (Timedelta (-1) 86399 0))).1).1 = inl Expired.
Proof. vm_compute; reflexivity. Qed.

(** * Further properties of the manager *)

(** ** The default-setting body as a map operation *)

Lemma first_value_list_to_map (k : string) (l : list (string * cfg_value)) :
  first_value k l = (list_to_map l : gmap string cfg_value) !! k.
Proof.
  induction l as [|[k' v] l IH]; [done|].
  cbn [first_value list_to_map foldr]. rewrite lookup_insert.
  cbn [fst snd]. by destruct (decide (k' = k)).
Qed.

(** A run of [setdefault] calls is the union of the dictionary with the
    table of defaults, the dictionary's own entries taking precedence. *)
Lemma setdefaults_union (l : list (string * cfg_value))
    (cfg : gmap string cfg_value) :
  foldl (λ c kv, setdefault kv.1 kv.2 c) cfg l = cfg ∪ list_to_map l.
Proof.
  apply map_eq. intros k. rewrite lookup_union.
  destruct (cfg !! k) as [v|] eqn:Hk.
  - rewrite (setdefaults_keep l k v cfg Hk).
    by destruct (list_to_map l !! k).
  - rewrite setdefaults_first by done. rewrite Hk.
    rewrite first_value_list_to_map.
    by destruct (list_to_map l !! k).
Qed.

(** The body of [_set_default_configuration_options], run on any
    configuration, yields the left-biased union of that configuration with
    the table of the thirty-five defaults: every option of the application
    is kept, every other option of the table gets its default, and nothing
    else is added. *)
Theorem defaults_body_is_union (cfg : gmap string cfg_value) :
  apply_defaults cfg = cfg ∪ list_to_map default_options.
Proof. apply setdefaults_union. Qed.

(** Running the default-setting body a second time changes nothing. *)
Theorem defaults_body_idempotent (cfg : gmap string cfg_value) :
  apply_defaults (apply_defaults cfg) = apply_defaults cfg.
Proof.
  unfold apply_defaults. rewrite !setdefaults_union.
  by rewrite <-(assoc_L (∪)), (idemp_L (∪)).
Qed.

Lemma default_names_in_namespace :
  Forall (λ n, String.prefix "JWT_" n = true) default_options.*1.
Proof. repeat constructor. Qed.

(** The default-setting body only writes names that begin with [JWT_]: an
    option under any other name is neither added, changed nor removed. *)
Theorem defaults_stay_in_namespace (cfg : gmap string cfg_value)
    (k : string) :
  String.prefix "JWT_" k = false →
  apply_defaults cfg !! k = cfg !! k.
Proof.
  intros Hk. unfold apply_defaults. rewrite setdefaults_union, lookup_union.
  assert (Hnone : (list_to_map default_options : gmap string cfg_value) !! k
                  = None).
  { apply not_elem_of_list_to_map_1. intros Hin.
    pose proof default_names_in_namespace as Hall.
    rewrite Forall_forall in Hall. apply Hall in Hin. congruence. }
  rewrite Hnone. by destruct (cfg !! k).
Qed.

Section ManagerProperties.

Context `{Domain} `{!DefaultCallbacks}.

(** ** Binding order *)

(** Awaiting the default-setting coroutine before [init_app] or after it
    gives the same application: the defaults only touch the configuration,
    [init_app] only the handler table. *)
Theorem awaiting_defaults_commutes_with_init_app (app : Sanic) :
  init_app (await _set_default_configuration_options app).2
  = (await _set_default_configuration_options (init_app app)).2.
Proof. reflexivity. Qed.

(** ** Registrations *)

(** A second registration through the same loader leaves the manager as if
    the first had never been made. *)
Theorem registration_overwrites (h : Hook) (cb1 cb2 : hook_ty h)
    (self : JWTManager) :
  call_loader h cb2 (call_loader h cb1 self) = call_loader h cb2 self.
Proof. destruct h; reflexivity. Qed.

(** Registrations under two different names can be made in either order. *)
Theorem registrations_commute (h1 h2 : Hook) (cb1 : hook_ty h1)
    (cb2 : hook_ty h2) (self : JWTManager) :
  h1 ≠ h2 →
  call_loader h1 cb1 (call_loader h2 cb2 self)
  = call_loader h2 cb2 (call_loader h1 cb1 self).
Proof. destruct h1, h2; intros Hne; try reflexivity; by destruct Hne. Qed.

(** The three loaders declared [async def], once awaited, return the
    callback they were given, store it under their name and leave the other
    entries alone; merely called, as a decorator does, they leave the whole
    manager unchanged. *)
Theorem async_loaders_register_when_awaited (self : JWTManager)
    (cbc : Obj → gmap string Json) (cbi : Obj → Identity)
    (cbe : unit → Response) (h : Hook) :
  let rc := await (user_claims_loader cbc) self in
  let ri := await (user_identity_loader cbi) self in
  let re := await (expired_token_loader cbe) self in
  (rc.1 = cbc ∧ ri.1 = cbi ∧ re.1 = cbe)
  ∧ (hook_value rc.2 user_claims = Some cbc
     ∧ hook_value ri.2 user_identity = Some cbi
     ∧ hook_value re.2 expired_token = Some cbe)
  ∧ (h ≠ user_claims → hook_value rc.2 h = hook_value self h)
  ∧ (h ≠ user_identity → hook_value ri.2 h = hook_value self h)
  ∧ (h ≠ expired_token → hook_value re.2 h = hook_value self h)
  ∧ (call_loader user_claims cbc self = self
     ∧ call_loader user_identity cbi self = self
     ∧ call_loader expired_token cbe self = self).
Proof.
  intros rc ri re. subst rc ri re.
  split; [done|]. split; [done|].
  split; [|split; [|split; [|done]]];
    intros Hne; destruct h; try reflexivity; by destruct Hne.
Qed.

(** ** The installed handlers *)

(** What the application answers to an exception of each class, for any
    state of the manager. *)
Lemma respond_init_app (cfg : gmap string cfg_value) (self : JWTManager)
    (ctx : Ctx) (e : Exn) :
  respond (init_app (new_app cfg)) self ctx e
  = Some (match exn_kind e with
          | NoAuthorizationError | CSRFError =>
              call unauthorized (ArgMsg (str e))
                   (_unauthorized_callback self (str e))
          | InvalidHeaderError | InvalidTokenError | JWTDecodeError
          | WrongTokenError =>
              call invalid_token (ArgMsg (str e))
                   (_invalid_token_callback self (str e))
          | ExpiredSignatureError =>
              call expired_token NoArg (_expired_token_callback self ())
          | RevokedTokenError =>
              call revoked_token NoArg (_revoked_token_callback self ())
          | FreshTokenRequired =>
              call needs_fresh_token NoArg
                   (_needs_fresh_token_callback self ())
          | UserLoadError =>
              call user_loader_error (ArgIdentity (get_jwt_identity ctx))
                   (_user_loader_error_callback self (get_jwt_identity ctx))
          | UserClaimsVerificationError =>
              call verify_claims_failed NoArg
                   (_verify_claims_failed_callback self ())
          end).
Proof.
  unfold respond, lookup_handler. rewrite init_app_handlers.
  destruct e as [[] msg]; reflexivity.
Qed.



(** A registration under a name other than the one a class answers through
    does not change the answer to that class. *)
Theorem unrelated_registration_keeps_answer (cfg : gmap string cfg_value)
    (self : JWTManager) (ctx : Ctx) (e : Exn) (h : Hook) (cb : hook_ty h) :
  h ≠ hook_of_kind (exn_kind e) →
  respond (init_app (new_app cfg)) (call_loader h cb self) ctx e
  = respond (init_app (new_app cfg)) self ctx e.
Proof.
  intros Hne. rewrite !respond_init_app.
  destruct e as [[] msg]; destruct h; try reflexivity; by destruct Hne.
Qed.

(** The classes that answer through neither the unauthorized nor the
    invalid-token entry get an answer that does not depend on the text of
    the exception: their handlers drop it. *)
Theorem answer_ignores_exception_text (cfg : gmap string cfg_value)
    (self : JWTManager) (ctx : Ctx) (k : ErrorKind) (m1 m2 : string) :
  unauthorized_class k = false →
  invalid_token_class k = false →
  respond (init_app (new_app cfg)) self ctx
          {| exn_kind := k; exn_msg := m1 |}
  = respond (init_app (new_app cfg)) self ctx
            {| exn_kind := k; exn_msg := m2 |}.
Proof.
  intros Hu Hi. rewrite !respond_init_app.
  destruct k; try discriminate Hu; try discriminate Hi; reflexivity.
Qed.

(** ** Issuing tokens *)

(** [_create_access_token] calls the identity, encode-key and claims
    callbacks once each, in that order, all on the object the caller passed
    (the key callback does not get the identity the identity callback
    returned), and hands the encoder their results together with the fresh
    flag of the call, the lifetime (the configured one when the caller gave
    none) and the configured names.  This holds for any pair of encoders. *)
Theorem access_token_issuance (E : TokenEncoders) (self : JWTManager)
    (cfg : Config) (env : Env) (obj : Obj) (f : bool)
    (delta : option timedelta) :
  _create_access_token self cfg env obj f delta
  = (encode_access_token env (_user_identity_callback self obj)
       (_encode_key_callback self obj) (algorithm cfg)
       (match delta with Some d => d | None => access_expires cfg end)
       f (Some (_user_claims_callback self obj)) (csrf_protect cfg)
       (identity_claim_key cfg) (user_claims_key cfg) (json_encoder cfg),
     [ Called user_identity (ArgObj obj);
       Called encode_key (ArgObj obj);
       Called user_claims (ArgObj obj) ]).
Proof. destruct delta; reflexivity. Qed.

(** Registering a callback under any name other than the three that
    issuance reads changes neither the tokens issued nor the calls made. *)
Theorem issuing_ignores_other_registrations (E : TokenEncoders)
    (self : JWTManager) (cfg : Config) (env : Env) (obj : Obj) (f : bool)
    (delta : option timedelta) (h : Hook) (cb : hook_ty h) :
  h ∉ [user_identity; encode_key; user_claims] →
  _create_access_token (call_loader h cb self) cfg env obj f delta
  = _create_access_token self cfg env obj f delta
  ∧ _create_refresh_token (call_loader h cb self) cfg env obj delta
    = _create_refresh_token self cfg env obj delta.
Proof.
  intros Hh. destruct h; try (split; reflexivity); set_solver.
Qed.

(** An access token depends on the configuration only through the
    algorithm, CSRF protection, the two claim names, the encoder and, when
    the caller gives no lifetime, the access lifetime: the refresh lifetime
    and the claims-in-refresh-token option are never read. *)
Theorem access_token_reads_only_its_options (E : TokenEncoders)
    (self : JWTManager) (cfg cfg' : Config) (env : Env) (obj : Obj)
    (f : bool) (delta : option timedelta) :
  algorithm cfg = algorithm cfg' →
  csrf_protect cfg = csrf_protect cfg' →
  identity_claim_key cfg = identity_claim_key cfg' →
  user_claims_key cfg = user_claims_key cfg' →
  json_encoder cfg = json_encoder cfg' →
  (delta = None → access_expires cfg = access_expires cfg') →
  _create_access_token self cfg env obj f delta
  = _create_access_token self cfg' env obj f delta.
Proof.
  intros Ha Hc Hi Hu Hj Hd. unfold _create_access_token.
  rewrite Ha, Hc, Hi, Hu, Hj.
  destruct delta as [d|]; [reflexivity|]. simpl. by rewrite Hd.
Qed.

(** A refresh token depends on the configuration only through the
    algorithm, CSRF protection, the two claim names, the encoder, the
    claims-in-refresh-token option and, when the caller gives no lifetime,
    the refresh lifetime: the access lifetime is never read. *)
Theorem refresh_token_reads_only_its_options (E : TokenEncoders)
    (self : JWTManager) (cfg cfg' : Config) (env : Env) (obj : Obj)
    (delta : option timedelta) :
  algorithm cfg = algorithm cfg' →
  csrf_protect cfg = csrf_protect cfg' →
  identity_claim_key cfg = identity_claim_key cfg' →
  user_claims_key cfg = user_claims_key cfg' →
  json_encoder cfg = json_encoder cfg' →
  user_claims_in_refresh_token cfg = user_claims_in_refresh_token cfg' →
  (delta = None → refresh_expires cfg = refresh_expires cfg') →
  _create_refresh_token self cfg env obj delta
  = _create_refresh_token self cfg' env obj delta.
Proof.
  intros Ha Hc Hi Hu Hj Hr Hd. unfold _create_refresh_token.
  rewrite Ha, Hc, Hi, Hu, Hj, Hr.
  destruct delta as [d|]; [reflexivity|]. simpl. by rewrite Hd.
Qed.

End ManagerProperties.

(** * The further properties on the concrete application *)

(** The application's own [REQUEST_TIMEOUT] survives the default-setting
    body untouched. *)
Lemma defaults_stay_in_namespace_witness :
  String.prefix "JWT_" "REQUEST_TIMEOUT" = false
  ∧ apply_defaults (config app_timeout) !! "REQUEST_TIMEOUT"
    = Some (CStr "60").
Proof.
  assert (Hp : String.prefix "JWT_" "REQUEST_TIMEOUT" = false) by reflexivity.
  split; [exact Hp|].
  rewrite (defaults_stay_in_namespace (config app_timeout) "REQUEST_TIMEOUT"
             Hp).
  vm_compute; reflexivity.
Defined.

(** Registering an invalid-token callback and an unauthorized callback in
    either order gives the same manager. *)
Lemma registrations_commute_witness :
  let cbi : @hook_ty demo_domain invalid_token := λ m, (422, "bad " +:+ m) in
  let cbu : @hook_ty demo_domain unauthorized := λ m, (401, "no " +:+ m) in
  invalid_token ≠ unauthorized
  ∧ call_loader invalid_token cbi (call_loader unauthorized cbu jwt)
    = call_loader unauthorized cbu (call_loader invalid_token cbi jwt).
Proof.
  intros cbi cbu.
  assert (Hne : invalid_token ≠ unauthorized) by discriminate.
  split; [exact Hne|].
  exact (registrations_commute invalid_token unauthorized cbi cbu jwt Hne).
Defined.

(** Awaiting [user_claims_loader] on the demo manager stores the callback
    and leaves the unauthorized entry alone. *)
Lemma async_loaders_register_when_awaited_witness :
  let cbc : string → gmap string string := λ _, {["role" := "admin"]} in
  hook_value (await (user_claims_loader cbc) jwt).2 user_claims = Some cbc
  ∧ hook_value (await (user_claims_loader cbc) jwt).2 unauthorized
    = hook_value jwt unauthorized.
Proof.
  intros cbc.
  destruct (async_loaders_register_when_awaited jwt cbc (λ o, o)
              (λ _, (401, "expired")) unauthorized)
    as (_ & (Hc & _ & _) & Hfr & _).
  split; [exact Hc|]. apply Hfr. discriminate.
Defined.

(** Registering a revoked-token callback does not change the answer to a
    missing token. *)
Lemma unrelated_registration_keeps_answer_witness :
  let cb : @hook_ty demo_domain revoked_token := λ _, (401, "revoked") in
  revoked_token ≠ hook_of_kind (exn_kind (raise NoAuthorizationError))
  ∧ respond app0 (call_loader revoked_token cb jwt) ctx0
            (raise NoAuthorizationError)
    = respond app0 jwt ctx0 (raise NoAuthorizationError).
Proof.
  intros cb.
  assert (Hne : revoked_token
                ≠ hook_of_kind (exn_kind (raise NoAuthorizationError)))
    by discriminate.
  split; [exact Hne|].
  exact (unrelated_registration_keeps_answer ∅ jwt ctx0
           (raise NoAuthorizationError) revoked_token cb Hne).
Defined.

(** Two revoked-token exceptions with different texts get the same
    answer. *)
Lemma answer_ignores_exception_text_witness :
  unauthorized_class RevokedTokenError = false
  ∧ invalid_token_class RevokedTokenError = false
  ∧ respond app0 jwt ctx0
            {| exn_kind := RevokedTokenError; exn_msg := "first" |}
    = respond app0 jwt ctx0
              {| exn_kind := RevokedTokenError; exn_msg := "second" |}.
Proof.
  split; [reflexivity|]. split; [reflexivity|].
  exact (answer_ignores_exception_text ∅ jwt ctx0 RevokedTokenError
           "first" "second" eq_refl eq_refl).
Defined.

(** Registering a revoked-token callback changes no issued token. *)
Lemma issuing_ignores_other_registrations_witness :
  let cb : @hook_ty demo_domain revoked_token := λ _, (401, "revoked") in
  (revoked_token ∉ [user_identity; encode_key; user_claims])
  ∧ _create_access_token (call_loader revoked_token cb jwt) default_config
      env0 "u1" true None
    = _create_access_token jwt default_config env0 "u1" true None
  ∧ _create_refresh_token (call_loader revoked_token cb jwt) default_config
      env0 "u1" None
    = _create_refresh_token jwt default_config env0 "u1" None.
Proof.
  intros cb.
  assert (Hh : revoked_token ∉ [user_identity; encode_key; user_claims]).
  { rewrite !not_elem_of_cons.
    repeat split; try discriminate. apply not_elem_of_nil. }
  split; [exact Hh|].
  exact (issuing_ignores_other_registrations spec_encoders jwt default_config
           env0 "u1" true None revoked_token cb Hh).
Defined.

(** A longer refresh lifetime and embedded refresh claims change no access
    token. *)
Lemma access_token_reads_only_its_options_witness :
  refresh_expires default_config ≠ refresh_expires long_refresh_config
  ∧ _create_access_token jwt_admin default_config env0 "u1" false None
    = _create_access_token jwt_admin long_refresh_config env0 "u1" false
        None.
Proof.
  split; [discriminate|].
  exact (access_token_reads_only_its_options spec_encoders jwt_admin
           default_config long_refresh_config env0 "u1" false None
           eq_refl eq_refl eq_refl eq_refl eq_refl (λ _, eq_refl)).
Defined.

(** A shorter access lifetime changes no refresh token. *)
Lemma refresh_token_reads_only_its_options_witness :
  access_expires default_config ≠ access_expires short_access_config
  ∧ _create_refresh_token jwt_admin default_config env0 "u1" None
    = _create_refresh_token jwt_admin short_access_config env0 "u1" None.
Proof.
  split; [discriminate|].
  exact (refresh_token_reads_only_its_options spec_encoders jwt_admin
           default_config short_access_config env0 "u1" None
           eq_refl eq_refl eq_refl eq_refl eq_refl eq_refl (λ _, eq_refl)).
Defined.
